(** * DiseaseDetectionPrototype: the capture-and-analysis pipeline

    A shallow embedding of the two React components of the prototype,
    [FaceScan] (camera / upload, face detection, mock health analysis) and
    [VoiceAnalysis] (microphone recording, level monitor, mock voice
    analysis), followed by the properties of the specification that were
    checked against them.

    Conventions of the embedding.

    - A JavaScript number is a rational ([Q]) and arithmetic is exact.
      Every finite double is a rational, comparison of doubles is exact, and
      no double lies strictly between the literal [0.7] (resp. [0.35]) and
      the real number it denotes, so the threshold tests agree with the
      source on every double.  [Math.round] is [floor (x + 1/2)].
    - [Math.random] reads the next draw of an injected source
      [random : nat -> Q]; the number of draws made so far is part of the
      world.
    - A function component is re-run on every render, and the handlers it
      defines close over the state values of *that* render.  A handler
      therefore takes two arguments: the render it was created in (a
      [State], written [ρ]) for every state variable it reads, and the
      current world for every ref it reads and every setter it calls.
    - An [async] handler is a resumption ([Async]): it runs up to its next
      [await], hands the world back, and continues on the world it finds
      when the awaited answer arrives. *)

From Stdlib Require Import ZArith QArith Qround String Ascii DecimalString Lia.
From Stdlib.Strings Require Import Byte.
From stdpp Require Import base list.

Open Scope Q_scope.

(** ** JavaScript values and library functions *)

Module Js.

(** [Math.round]: the nearest integer, a tie going up. *)
Definition Math_round (x : Q) : Z := Qfloor (x + (1 # 2)).

(** [Math.min] on two numbers. *)
Definition Math_min (x y : Q) : Q := if Qle_bool x y then x else y.

(** [x > y] on numbers. *)
Definition gt (x y : Q) : bool := negb (Qle_bool x y).

(** [x < y] on integers held in a number. *)
Definition lt (x y : Z) : bool := (x <? y)%Z.

(** What an optional numeric field read with [?.] can hold. *)
Inductive value : Type :=
| undefined
| NaN
| number (q : Q).

(** [ToBoolean]: [undefined], [NaN] and zero are falsy. *)
Definition truthy (v : value) : bool :=
  match v with
  | undefined | NaN => false
  | number q => negb (Qeq_bool q 0)
  end.

(** [a || b]. *)
Definition or (a b : value) : value := if truthy a then a else b.

(** The outcome of an awaited promise. *)
Inductive Settled (A : Type) : Type :=
| Fulfilled (a : A)
| Rejected.
Arguments Fulfilled {A} a.
Arguments Rejected {A}.

(** [n.toString()] on an integer: its decimal digits, after a minus sign
    when it is negative. *)
Definition toString (n : Z) : string := NilZero.string_of_int (Z.to_int n).

(** [s.padStart(2, '0')]. *)
Definition padStart2 (s : string) : string :=
  match String.length s with
  | 0%nat => "00"%string
  | 1%nat => String "0"%char s
  | _ => s
  end.

End Js.

(** ** The randomness source *)

(** A computation that calls [Math.random]: it reads the source from the
    position it is given and returns the position it stopped at. *)
Definition Rand (A : Type) : Type := (nat -> Q) -> nat -> A * nat.

Definition ret {A} (a : A) : Rand A := fun _ n => (a, n).

Definition bind {A B} (m : Rand A) (f : A -> Rand B) : Rand B :=
  fun random n => let (a, n') := m random n in f a random n'.

Definition Math_random : Rand Q := fun random n => (random n, S n).

Notation "x <- m ;; k" := (bind m (fun x => k))
  (at level 100, m at next level, right associativity).

(** ** Asynchronous handlers *)

(** [Suspended req w k]: the handler awaits [req], the world is [w]; when
    the answer [r] arrives and the world has become [w'], it goes on as
    [k r w']. *)
Inductive Async (Req : Type -> Type) (W : Type) : Type :=
| Resolved (w : W)
| Suspended {R : Type} (req : Req R) (w : W) (k : R -> W -> Async Req W).
Arguments Resolved {Req W} w.
Arguments Suspended {Req W R} req w k.

(** [await a; rest]: run [a] to its end, then [rest]. *)
Fixpoint andThen {Req W} (a : Async Req W) (rest : W -> Async Req W)
  : Async Req W :=
  match a with
  | Resolved w => rest w
  | Suspended req w k => Suspended req w (fun r w' => andThen (k r w') rest)
  end.

(** The risk categories, shared by both result types ([null] is [None]). *)
Inductive Status : Type := healthy | needs_consultation | high_risk.
Definition HealthStatus : Type := option Status.

(** ** FaceScan (src/unnamed/part_000) *)

Module FaceScan.

Record AnalysisResult : Type := {
  status : HealthStatus;
  confidence : Z;
  details : list string;
  recommendations : list string
}.

(** The loaded BlazeFace model: a detector the component only calls. *)
Inductive BlazeFaceModel : Type := blazeface.

(** One detected region, as [estimateFaces] returns it. *)
Record Prediction : Type := {
  topLeft : Q * Q;
  bottomRight : Q * Q;
  probability : Js.value
}.

(** A decoded picture (a video frame or an uploaded image): its size and
    its pixels, which are opaque. *)
Record Picture : Type := { pixels : nat; pictureWidth : Z; pictureHeight : Z }.

(** What has been painted on the canvas since its bitmap was last blank. *)
Inductive Drawing : Type :=
| DrawImage (src : nat)
| StrokeRect (strokeStyle : string) (lineWidth : Z) (x y w h : Q)
| ClearRect (x y w h : Z).

Record Canvas : Type := { width : Z; height : Z; bitmap : list Drawing }.

(** The [<video>] element: the stream it shows (a media stream is named
    by its number) and the frame it is showing, whose size is
    [videoWidth] x [videoHeight]. *)
Record Video : Type := { srcObject : option nat; playing : Picture }.
Definition videoWidth (v : Video) : Z := pictureWidth (playing v).
Definition videoHeight (v : Video) : Z := pictureHeight (playing v).

(** The [useState] values of one render. *)
Record State : Type := {
  isModelLoading : bool;
  model : option BlazeFaceModel;
  isAnalyzing : bool;
  isCameraActive : bool;
  analysisResult : option AnalysisResult;
  error : option string
}.

(** The state as last set, the refs, the camera streams handed out so far
    ([true]: its tracks are live) and the number of [Math.random] calls. *)
Record World : Type := {
  state : State;
  videoRef : option Video;
  canvasRef : option Canvas;
  streamRef : option nat;
  streams : list bool;
  draws : nat
}.

(** *** Setters *)

Definition withState (f : State -> State) (w : World) : World :=
  {| state := f (state w); videoRef := videoRef w; canvasRef := canvasRef w;
     streamRef := streamRef w; streams := streams w; draws := draws w |}.

Definition setIsAnalyzing (b : bool) : World -> World :=
  withState (fun s =>
    {| isModelLoading := isModelLoading s; model := model s; isAnalyzing := b;
       isCameraActive := isCameraActive s; analysisResult := analysisResult s;
       error := error s |}).

Definition setIsCameraActive (b : bool) : World -> World :=
  withState (fun s =>
    {| isModelLoading := isModelLoading s; model := model s;
       isAnalyzing := isAnalyzing s; isCameraActive := b;
       analysisResult := analysisResult s; error := error s |}).

Definition setAnalysisResult (r : option AnalysisResult) : World -> World :=
  withState (fun s =>
    {| isModelLoading := isModelLoading s; model := model s;
       isAnalyzing := isAnalyzing s; isCameraActive := isCameraActive s;
       analysisResult := r; error := error s |}).

Definition setError (e : option string) : World -> World :=
  withState (fun s =>
    {| isModelLoading := isModelLoading s; model := model s;
       isAnalyzing := isAnalyzing s; isCameraActive := isCameraActive s;
       analysisResult := analysisResult s; error := e |}).

Definition setVideoRef (v : option Video) (w : World) : World :=
  {| state := state w; videoRef := v; canvasRef := canvasRef w;
     streamRef := streamRef w; streams := streams w; draws := draws w |}.

Definition setCanvasRef (c : option Canvas) (w : World) : World :=
  {| state := state w; videoRef := videoRef w; canvasRef := c;
     streamRef := streamRef w; streams := streams w; draws := draws w |}.

Definition setStreamRef (s : option nat) (w : World) : World :=
  {| state := state w; videoRef := videoRef w; canvasRef := canvasRef w;
     streamRef := s; streams := streams w; draws := draws w |}.

Definition setStreams (l : list bool) (w : World) : World :=
  {| state := state w; videoRef := videoRef w; canvasRef := canvasRef w;
     streamRef := streamRef w; streams := l; draws := draws w |}.

Definition setDraws (n : nat) (w : World) : World :=
  {| state := state w; videoRef := videoRef w; canvasRef := canvasRef w;
     streamRef := streamRef w; streams := streams w; draws := n |}.

(** *** The host: streams, canvas, awaited capabilities *)

(** [stream.getTracks().forEach(track => track.stop())]. *)
Definition stopTracks (stream : nat) (w : World) : World :=
  setStreams (<[stream := false]> (streams w)) w.

(** A granted [getUserMedia]: a new stream with live tracks. *)
Definition newStream (w : World) : nat * World :=
  (length (streams w), setStreams (streams w ++ [true]) w).

(** [canvas.getContext('2d')]: the component asks for no other kind of
    context, so the call always returns one. *)
Definition getContext2d (c : Canvas) : option Canvas := Some c.

(** Assigning [canvas.width] / [canvas.height] blanks the bitmap. *)
Definition setSize (w h : Z) (c : Canvas) : Canvas :=
  {| width := w; height := h; bitmap := [] |}.

Definition paint (d : Drawing) (c : Canvas) : Canvas :=
  {| width := width c; height := height c; bitmap := bitmap c ++ [d] |}.

(** [ctx.clearRect]: a rectangle that covers the canvas leaves it blank. *)
Definition clearRect (x y w h : Z) (c : Canvas) : Canvas :=
  if ((x <=? 0) && (y <=? 0) && (width c <=? x + w) && (height c <=? y + h))%Z
  then {| width := width c; height := height c; bitmap := [] |}
  else paint (ClearRect x y w h) c.

(** A handler's [canvas] / [ctx] variables name the mounted element. *)
Definition onCanvas (f : Canvas -> Canvas) (w : World) : World :=
  match canvasRef w with
  | Some c => setCanvasRef (Some (f c)) w
  | None => w
  end.

Inductive Request : Type -> Type :=
| GetUserMedia : Request (Js.Settled unit)
| EstimateFaces (m : BlazeFaceModel) (input : Canvas)
  : Request (Js.Settled (list Prediction))
| ImageLoad (file : nat) : Request Picture
| SetTimeout (ms : Z) : Request unit.

(** [Math.random]-using code run against the world's draw counter. *)
Definition sample {A} (random : nat -> Q) (m : Rand A) (w : World)
  : A * World :=
  let (a, n) := m random (draws w) in (a, setDraws n w).

(** *** The catalog and the classifier (lines 192-242 of [analyzeHealth]) *)

#[local] Open Scope string_scope.

Definition classify : Rand (HealthStatus * Q * list string * list string) :=
  randomFactor <- Math_random ;;
  if Js.gt randomFactor 0.7 then
    u <- Math_random ;;
    ret (Some healthy, 75 + u * 20,
         [ "Normal facial symmetry detected";
           "Skin tone analysis: Within normal range";
           "Eye analysis: No visible abnormalities";
           "Facial temperature estimation: Normal" ],
         [ "Continue maintaining good health habits";
           "Regular health checkups recommended";
           "Stay hydrated and get adequate sleep" ])
  else if Js.gt randomFactor 0.35 then
    u <- Math_random ;;
    ret (Some needs_consultation, 60 + u * 15,
         [ "Minor facial asymmetry detected";
           "Skin tone variation observed";
           "Eye fatigue indicators present";
           "Possible signs of stress or fatigue" ],
         [ "Schedule a consultation with a healthcare provider";
           "Monitor for any changes in symptoms";
           "Ensure adequate rest and stress management";
           "Consider a comprehensive health screening" ])
  else
    u <- Math_random ;;
    ret (Some high_risk, 55 + u * 10,
         [ "Significant facial irregularities detected";
           "Abnormal skin tone patterns observed";
           "Multiple risk indicators present";
           "Immediate medical attention may be needed" ],
         [ "Consult a healthcare professional immediately";
           "Schedule comprehensive medical examination";
           "Document any recent symptoms or changes";
           "Do not delay seeking medical advice" ]).

(** The object handed to [setAnalysisResult]. *)
Definition produce : Rand AnalysisResult :=
  c <- classify ;;
  let '(status, finalConfidence, details, recommendations) := c in
  ret {| status := status;
         confidence := Js.Math_round finalConfidence;
         details := details;
         recommendations := recommendations |}.

(** [predictions[0]?.probability || 0.95]. *)
Definition detectionConfidence (predictions : list Prediction) : Js.value :=
  Js.or (match predictions !! 0%nat with
         | Some p => probability p
         | None => Js.undefined
         end)
        (Js.number 0.95).

Definition noFaceCamera : string :=
  "No face detected. Please ensure your face is clearly visible.".
Definition noFaceUpload : string :=
  "No face detected in the image. Please upload a clear face photo.".
Definition analysisFailed : string := "Analysis failed. Please try again.".
Definition cameraDenied : string :=
  "Could not access camera. Please check permissions.".

(** *** The handlers *)

Section Handlers.

Variable random : nat -> Q.

Definition startCamera_granted (res : Js.Settled unit) (w : World)
  : Async Request World :=
  match res with
  | Js.Fulfilled _ =>
      let (stream, w) := newStream w in
      match videoRef w with
      | Some video =>
          let w := setVideoRef
                     (Some {| srcObject := Some stream;
                              playing := playing video |}) w in
          let w := setStreamRef (Some stream) w in
          Resolved (setIsCameraActive true w)
      | None => Resolved w
      end
  | Js.Rejected => Resolved (setError (Some cameraDenied) w)
  end.

Definition startCamera (w : World) : Async Request World :=
  let w := setError None w in
  Suspended GetUserMedia w startCamera_granted.

Definition stopCamera (w : World) : World :=
  let w := match streamRef w with
           | Some stream => setStreamRef None (stopTracks stream w)
           | None => w
           end in
  let w := match videoRef w with
           | Some video =>
               setVideoRef
                 (Some {| srcObject := None; playing := playing video |}) w
           | None => w
           end in
  setIsCameraActive false w.

(** The body of [analyzeHealth] after its two-second wait. *)
Definition analyzeHealth_resume (predictions : list Prediction)
    (_ : unit) (w : World) : Async Request World :=
  let faceCount := length predictions in
  let confidence := detectionConfidence predictions in
  let (result, w) := sample random produce w in
  Resolved (setAnalysisResult (Some result) w).

Definition analyzeHealth (predictions : list Prediction) (w : World)
  : Async Request World :=
  Suspended (SetTimeout 2000) w (analyzeHealth_resume predictions).

(** [predictions.forEach(...)]: one stroked box per region, in order. *)
Definition box (prediction : Prediction) : Drawing :=
  let start := topLeft prediction in
  let end_ := bottomRight prediction in
  let size := (fst end_ - fst start, snd end_ - snd start) in
  StrokeRect "#10b981" 3 (fst start) (snd start) (fst size) (snd size).

Definition drawBoxes (predictions : list Prediction) (w : World) : World :=
  fold_left (fun w prediction => onCanvas (paint (box prediction)) w)
            predictions w.

(** [captureAndAnalyze] from the answer of [estimateFaces] on. *)
Definition captureAndAnalyze_detected
    (res : Js.Settled (list Prediction)) (w : World)
  : Async Request World :=
  match res with
  | Js.Fulfilled predictions =>
      if (length predictions =? 0)%nat then
        let w := setError (Some noFaceCamera) w in
        Resolved (setIsAnalyzing false w)
      else
        let w := drawBoxes predictions w in
        andThen (analyzeHealth predictions w) (fun w =>
          let w := stopCamera w in
          Resolved (setIsAnalyzing false w))
  | Js.Rejected =>
      let w := setError (Some analysisFailed) w in
      Resolved (setIsAnalyzing false w)
  end.

Definition captureAndAnalyze (rho : State) (w : World)
  : Async Request World :=
  match videoRef w, canvasRef w, model rho with
  | Some video, Some canvas, Some m =>
      let w := setIsAnalyzing true w in
      let w := setError None w in
      let canvas := setSize (videoWidth video) (videoHeight video) canvas in
      let w := setCanvasRef (Some canvas) w in
      match getContext2d canvas with
      | None => Resolved w
      | Some ctx =>
          let canvas := paint (DrawImage (pixels (playing video))) ctx in
          let w := setCanvasRef (Some canvas) w in
          Suspended (EstimateFaces m canvas) w captureAndAnalyze_detected
      end
  | _, _, _ => Resolved w
  end.

(** [img.onload] from the answer of [estimateFaces] on. *)
Definition handleFileUpload_detected
    (res : Js.Settled (list Prediction)) (w : World)
  : Async Request World :=
  match res with
  | Js.Fulfilled predictions =>
      if (length predictions =? 0)%nat then
        let w := setError (Some noFaceUpload) w in
        Resolved (setIsAnalyzing false w)
      else
        let w := drawBoxes predictions w in
        andThen (analyzeHealth predictions w) (fun w =>
          Resolved (setIsAnalyzing false w))
  | Js.Rejected =>
      let w := setError (Some analysisFailed) w in
      Resolved (setIsAnalyzing false w)
  end.

(** [img.onload]; a missing canvas makes [canvasRef.current!] throw. *)
Definition handleFileUpload_loaded (m : BlazeFaceModel) (img : Picture)
    (w : World) : Async Request World :=
  match canvasRef w with
  | Some canvas =>
      let canvas := setSize (pictureWidth img) (pictureHeight img) canvas in
      let canvas := paint (DrawImage (pixels img)) canvas in
      let w := setCanvasRef (Some canvas) w in
      Suspended (EstimateFaces m canvas) w handleFileUpload_detected
  | None => Resolved w
  end.

Definition handleFileUpload (rho : State) (file : option nat) (w : World)
  : Async Request World :=
  match file, canvasRef w, model rho with
  | Some f, Some _, Some m =>
      let w := setIsAnalyzing true w in
      let w := setError None w in
      Suspended (ImageLoad f) w (handleFileUpload_loaded m)
  | _, _, _ => Resolved w
  end.

Definition resetAnalysis (w : World) : World :=
  let w := setAnalysisResult None w in
  let w := setError None w in
  match canvasRef w with
  | Some canvas =>
      match getContext2d canvas with
      | Some ctx =>
          setCanvasRef (Some (clearRect 0 0 (width canvas) (height canvas) ctx)) w
      | None => w
      end
  | None => w
  end.

End Handlers.

(** *** Rendering *)

(** The JSX mounts [<video ref={videoRef}>] only while no result is shown
    and the camera is active; React clears the ref of an unmounted
    element and fills it with the new element when one is mounted. *)
Definition videoMounted (rho : State) : bool :=
  match analysisResult rho with
  | None => isCameraActive rho
  | Some _ => false
  end.

Definition blankVideo : Video :=
  {| srcObject := None;
     playing := {| pixels := 0; pictureWidth := 0; pictureHeight := 0 |} |}.

Definition commit (w : World) : World :=
  if videoMounted (state w) then
    match videoRef w with
    | Some _ => w
    | None => setVideoRef (Some blankVideo) w
    end
  else setVideoRef None w.

(** The first render: the model is loading, nothing is active, the canvas
    (always mounted) has the default size. *)
Definition initial : World :=
  {| state := {| isModelLoading := true; model := None; isAnalyzing := false;
                 isCameraActive := false; analysisResult := None;
                 error := None |};
     videoRef := None;
     canvasRef := Some {| width := 300; height := 150; bitmap := [] |};
     streamRef := None;
     streams := [];
     draws := 0 |}.

(** A world with the camera running: what [startCamera] sets up when a
    video element is mounted and permission is granted, the model loaded. *)
Definition cameraLive : World :=
  {| state := {| isModelLoading := false; model := Some blazeface;
                 isAnalyzing := false; isCameraActive := true;
                 analysisResult := None; error := None |};
     videoRef := Some {| srcObject := Some 0%nat;
                         playing := {| pixels := 1; pictureWidth := 640;
                                       pictureHeight := 480 |} |};
     canvasRef := Some {| width := 300; height := 150; bitmap := [] |};
     streamRef := Some 0%nat;
     streams := [true];
     draws := 0 |}.

(** What is painted on the canvas. *)
Definition artifacts (w : World) : list Drawing :=
  match canvasRef w with
  | Some c => bitmap c
  | None => []
  end.

(** The camera session is active when the component holds a stream, shows
    the camera as active, or a video element is playing one. *)
Definition sessionActive (w : World) : bool :=
  match streamRef w with
  | Some _ => true
  | None =>
      isCameraActive (state w)
      || match videoRef w with
         | Some v => match srcObject v with Some _ => true | None => false end
         | None => false
         end
  end.

End FaceScan.

(** ** VoiceAnalysis (src/VoiceAnalysis.tsx) *)

Module VoiceAnalysis.

Record Metrics : Type := {
  pitch : Z;
  volume : Z;
  duration : Z;
  clarity : Z
}.

Record VoiceAnalysisResult : Type := {
  status : HealthStatus;
  confidence : Z;
  metrics : Metrics;
  details : list string;
  recommendations : list string
}.

(** The [useState] values of one render. *)
Record State : Type := {
  isRecording : bool;
  isAnalyzing : bool;
  analysisResult : option VoiceAnalysisResult;
  error : option string;
  recordingTime : Z;
  audioLevel : Q
}.

(** The [useRef] cells.  Objects of the host are named by their number;
    the handles of timers and frame requests are positive integers. *)
Record Refs : Type := {
  mediaRecorderRef : option nat;
  audioContextRef : option nat;
  analyserRef : option nat;
  audioChunksRef : list nat;
  animationFrameRef : option nat;
  timerRef : option nat
}.

(** A [MediaRecorder]: the stream it records, whether its state is
    ['recording'], and its [onstop] handler, which is the closure made by
    [startRecording] in render [onstop]. *)
Record MediaRecorder : Type := {
  stream : nat;
  recording : bool;
  onstop : State
}.

(** The browser side: microphone streams ([true]: tracks live), recorders,
    audio contexts ([true]: not closed), intervals ([true]: not cleared;
    the handle of interval [i] is [S i]), the frame callbacks requested
    and not yet run or cancelled (handle, and the render whose
    [updateLevel] it is), the number of handles given out, the recorders
    whose [stop] event is queued, the spectrum an analyser node reports
    now, and the number of [Math.random] calls so far. *)
Record Host : Type := {
  streams : list bool;
  recorders : list MediaRecorder;
  contexts : list bool;
  intervals : list bool;
  frameRequests : list (nat * State);
  frameHandles : nat;
  stopEvents : list nat;
  spectrum : list byte;
  draws : nat
}.

Record World : Type := { state : State; refs : Refs; host : Host }.

(** *** Setters *)

Definition withState (f : State -> State) (w : World) : World :=
  {| state := f (state w); refs := refs w; host := host w |}.
Definition withRefs (f : Refs -> Refs) (w : World) : World :=
  {| state := state w; refs := f (refs w); host := host w |}.
Definition withHost (f : Host -> Host) (w : World) : World :=
  {| state := state w; refs := refs w; host := f (host w) |}.

Definition setIsRecording (b : bool) : World -> World :=
  withState (fun s =>
    {| isRecording := b; isAnalyzing := isAnalyzing s;
       analysisResult := analysisResult s; error := error s;
       recordingTime := recordingTime s; audioLevel := audioLevel s |}).

Definition setIsAnalyzing (b : bool) : World -> World :=
  withState (fun s =>
    {| isRecording := isRecording s; isAnalyzing := b;
       analysisResult := analysisResult s; error := error s;
       recordingTime := recordingTime s; audioLevel := audioLevel s |}).

Definition setAnalysisResult (r : option VoiceAnalysisResult)
  : World -> World :=
  withState (fun s =>
    {| isRecording := isRecording s; isAnalyzing := isAnalyzing s;
       analysisResult := r; error := error s;
       recordingTime := recordingTime s; audioLevel := audioLevel s |}).

Definition setError (e : option string) : World -> World :=
  withState (fun s =>
    {| isRecording := isRecording s; isAnalyzing := isAnalyzing s;
       analysisResult := analysisResult s; error := e;
       recordingTime := recordingTime s; audioLevel := audioLevel s |}).

(** [setRecordingTime] takes an updater of the latest value
    ([setRecordingTime(0)] is the constant one). *)
Definition setRecordingTime (f : Z -> Z) : World -> World :=
  withState (fun s =>
    {| isRecording := isRecording s; isAnalyzing := isAnalyzing s;
       analysisResult := analysisResult s; error := error s;
       recordingTime := f (recordingTime s); audioLevel := audioLevel s |}).

Definition setAudioLevel (l : Q) : World -> World :=
  withState (fun s =>
    {| isRecording := isRecording s; isAnalyzing := isAnalyzing s;
       analysisResult := analysisResult s; error := error s;
       recordingTime := recordingTime s; audioLevel := l |}).

Definition setMediaRecorderRef (r : option nat) : World -> World :=
  withRefs (fun x =>
    {| mediaRecorderRef := r; audioContextRef := audioContextRef x;
       analyserRef := analyserRef x; audioChunksRef := audioChunksRef x;
       animationFrameRef := animationFrameRef x; timerRef := timerRef x |}).

Definition setAudioContextRef (r : option nat) : World -> World :=
  withRefs (fun x =>
    {| mediaRecorderRef := mediaRecorderRef x; audioContextRef := r;
       analyserRef := analyserRef x; audioChunksRef := audioChunksRef x;
       animationFrameRef := animationFrameRef x; timerRef := timerRef x |}).

Definition setAnalyserRef (r : option nat) : World -> World :=
  withRefs (fun x =>
    {| mediaRecorderRef := mediaRecorderRef x;
       audioContextRef := audioContextRef x;
       analyserRef := r; audioChunksRef := audioChunksRef x;
       animationFrameRef := animationFrameRef x; timerRef := timerRef x |}).

Definition setAudioChunksRef (l : list nat) : World -> World :=
  withRefs (fun x =>
    {| mediaRecorderRef := mediaRecorderRef x;
       audioContextRef := audioContextRef x;
       analyserRef := analyserRef x; audioChunksRef := l;
       animationFrameRef := animationFrameRef x; timerRef := timerRef x |}).

Definition setAnimationFrameRef (r : option nat) : World -> World :=
  withRefs (fun x =>
    {| mediaRecorderRef := mediaRecorderRef x;
       audioContextRef := audioContextRef x;
       analyserRef := analyserRef x; audioChunksRef := audioChunksRef x;
       animationFrameRef := r; timerRef := timerRef x |}).

Definition setTimerRef (r : option nat) : World -> World :=
  withRefs (fun x =>
    {| mediaRecorderRef := mediaRecorderRef x;
       audioContextRef := audioContextRef x;
       analyserRef := analyserRef x; audioChunksRef := audioChunksRef x;
       animationFrameRef := animationFrameRef x; timerRef := r |}).

Definition setStreams (l : list bool) : World -> World :=
  withHost (fun h =>
    {| streams := l; recorders := recorders h; contexts := contexts h;
       intervals := intervals h; frameRequests := frameRequests h;
       frameHandles := frameHandles h; stopEvents := stopEvents h;
       spectrum := spectrum h; draws := draws h |}).

Definition setRecorders (l : list MediaRecorder) : World -> World :=
  withHost (fun h =>
    {| streams := streams h; recorders := l; contexts := contexts h;
       intervals := intervals h; frameRequests := frameRequests h;
       frameHandles := frameHandles h; stopEvents := stopEvents h;
       spectrum := spectrum h; draws := draws h |}).

Definition setContexts (l : list bool) : World -> World :=
  withHost (fun h =>
    {| streams := streams h; recorders := recorders h; contexts := l;
       intervals := intervals h; frameRequests := frameRequests h;
       frameHandles := frameHandles h; stopEvents := stopEvents h;
       spectrum := spectrum h; draws := draws h |}).

Definition setIntervals (l : list bool) : World -> World :=
  withHost (fun h =>
    {| streams := streams h; recorders := recorders h;
       contexts := contexts h; intervals := l;
       frameRequests := frameRequests h; frameHandles := frameHandles h;
       stopEvents := stopEvents h; spectrum := spectrum h;
       draws := draws h |}).

Definition setFrameRequests (l : list (nat * State)) (n : nat)
  : World -> World :=
  withHost (fun h =>
    {| streams := streams h; recorders := recorders h;
       contexts := contexts h; intervals := intervals h;
       frameRequests := l; frameHandles := n;
       stopEvents := stopEvents h; spectrum := spectrum h;
       draws := draws h |}).

Definition setStopEvents (l : list nat) : World -> World :=
  withHost (fun h =>
    {| streams := streams h; recorders := recorders h;
       contexts := contexts h; intervals := intervals h;
       frameRequests := frameRequests h; frameHandles := frameHandles h;
       stopEvents := l; spectrum := spectrum h; draws := draws h |}).

Definition setSpectrum (l : list byte) : World -> World :=
  withHost (fun h =>
    {| streams := streams h; recorders := recorders h;
       contexts := contexts h; intervals := intervals h;
       frameRequests := frameRequests h; frameHandles := frameHandles h;
       stopEvents := stopEvents h; spectrum := l; draws := draws h |}).

Definition setDraws (n : nat) : World -> World :=
  withHost (fun h =>
    {| streams := streams h; recorders := recorders h;
       contexts := contexts h; intervals := intervals h;
       frameRequests := frameRequests h; frameHandles := frameHandles h;
       stopEvents := stopEvents h; spectrum := spectrum h; draws := n |}).

(** *** The host *)

(** A granted [getUserMedia({ audio: true })]. *)
Definition newStream (w : World) : nat * World :=
  (length (streams (host w)), setStreams (streams (host w) ++ [true]) w).

Definition stopTracks (s : nat) (w : World) : World :=
  setStreams (<[s := false]> (streams (host w))) w.

(** [new AudioContext()]. *)
Definition newAudioContext (w : World) : nat * World :=
  (length (contexts (host w)), setContexts (contexts (host w) ++ [true]) w).

(** [audioContext.close()]. *)
Definition closeContext (c : nat) (w : World) : World :=
  setContexts (<[c := false]> (contexts (host w))) w.

(** [new MediaRecorder(stream)] with its [onstop] handler attached. *)
Definition newMediaRecorder (s : nat) (rho : State) (w : World)
  : nat * World :=
  (length (recorders (host w)),
   setRecorders
     (recorders (host w)
        ++ [{| stream := s; recording := false; onstop := rho |}]) w).

(** [mediaRecorder.start()]. *)
Definition recorderStart (r : nat) (w : World) : World :=
  match recorders (host w) !! r with
  | Some m =>
      setRecorders
        (<[r := {| stream := stream m; recording := true;
                   onstop := onstop m |}]> (recorders (host w))) w
  | None => w
  end.

(** [mediaRecorder.stop()]: a recorder that is recording becomes inactive
    and a task is queued that will fire [dataavailable] and [stop]; on an
    inactive recorder the call does nothing. *)
Definition recorderStop (r : nat) (w : World) : World :=
  match recorders (host w) !! r with
  | Some m =>
      if recording m then
        let w := setRecorders
                   (<[r := {| stream := stream m; recording := false;
                              onstop := onstop m |}]> (recorders (host w)))
                   w in
        setStopEvents (stopEvents (host w) ++ [r]) w
      else w
  | None => w
  end.

(** [setInterval(f, 1000)]: the handle is positive. *)
Definition setInterval (w : World) : nat * World :=
  (S (length (intervals (host w))),
   setIntervals (intervals (host w) ++ [true]) w).

(** [clearInterval(id)]. *)
Definition clearInterval (id : nat) (w : World) : World :=
  match id with
  | S i => setIntervals (<[i := false]> (intervals (host w))) w
  | O => w
  end.

(** [requestAnimationFrame(updateLevel)], for the [updateLevel] of render
    [rho]: the handle is positive. *)
Definition requestAnimationFrame (rho : State) (w : World) : nat * World :=
  let id := S (frameHandles (host w)) in
  (id, setFrameRequests (frameRequests (host w) ++ [(id, rho)]) id w).

(** [cancelAnimationFrame(id)]. *)
Definition cancelAnimationFrame (id : nat) (w : World) : World :=
  setFrameRequests
    (filter (fun request => fst request <> id) (frameRequests (host w)))
    (frameHandles (host w)) w.

(** [analyser.frequencyBinCount]: half of [fftSize = 256]. *)
Definition frequencyBinCount : nat := 128.

(** [analyser.getByteFrequencyData(dataArray)] fills the array, whose
    length is [frequencyBinCount], with the current spectrum. *)
Definition getByteFrequencyData (w : World) : list byte :=
  resize frequencyBinCount x00 (spectrum (host w)).

Definition byteValue (b : byte) : Q := inject_Z (Z.of_N (Byte.to_N b)).

(** [dataArray.reduce((a, b) => a + b)]: no initial value, so the first
    element starts the sum. *)
Definition reduceSum (dataArray : list byte) : Q :=
  match dataArray with
  | b :: rest => fold_left (fun a b => a + byteValue b) rest (byteValue b)
  | [] => 0
  end.

(** [if (ref.current) ...] on a handle: [null] and [0] are falsy. *)
Definition whenHandle (ref : option nat) (f : nat -> World -> World)
    (w : World) : World :=
  match ref with
  | Some (S _ as id) => f id w
  | _ => w
  end.

Inductive Request : Type -> Type :=
| GetUserMedia : Request (Js.Settled unit)
| SetTimeout (ms : Z) : Request unit.

Definition sample {A} (random : nat -> Q) (m : Rand A) (w : World)
  : A * World :=
  let (a, n) := m random (draws (host w)) in (a, setDraws n w).

(** *** The catalog and the classifier (lines 156-212 of [analyzeVoice]) *)

#[local] Open Scope string_scope.

Definition classify : Rand (HealthStatus * Q * list string * list string) :=
  randomFactor <- Math_random ;;
  if Js.gt randomFactor 0.7 then
    u <- Math_random ;;
    ret (Some healthy, 75 + u * 20,
         [ "Voice pitch within normal range";
           "Clear pronunciation detected";
           "No irregular breathing patterns";
           "Normal speech tempo";
           "No signs of voice strain or hoarseness" ],
         [ "Voice characteristics appear normal";
           "Continue maintaining good vocal health";
           "Stay hydrated and avoid excessive strain";
           "Regular health checkups recommended" ])
  else if Js.gt randomFactor 0.35 then
    u <- Math_random ;;
    ret (Some needs_consultation, 60 + u * 15,
         [ "Minor voice irregularities detected";
           "Slight hoarseness or strain observed";
           "Irregular breathing pattern noticed";
           "Voice pitch variation detected";
           "Possible signs of fatigue or stress" ],
         [ "Schedule a consultation with a healthcare provider";
           "Consider ENT specialist evaluation";
           "Monitor for persistent voice changes";
           "Rest your voice and stay hydrated";
           "Avoid shouting or excessive talking" ])
  else
    u <- Math_random ;;
    ret (Some high_risk, 55 + u * 10,
         [ "Significant voice abnormalities detected";
           "Severe hoarseness or strain present";
           "Irregular breathing patterns observed";
           "Multiple risk indicators identified";
           "Possible respiratory concerns" ],
         [ "Consult a healthcare professional immediately";
           "Schedule ENT and respiratory evaluation";
           "Document any additional symptoms";
           "Avoid straining your voice";
           "Seek medical attention without delay" ]).

(** Lines 150-225: the object handed to [setAnalysisResult], for the
    [recordingTime] the handler reads. *)
Definition produce (recordingTime : Z) : Rand VoiceAnalysisResult :=
  p <- Math_random ;;
  let mockPitch := 100 + p * 100 in
  v <- Math_random ;;
  let mockVolume := 50 + v * 40 in
  c <- Math_random ;;
  let mockClarity := 70 + c * 25 in
  cls <- classify ;;
  let '(status, confidence, details, recommendations) := cls in
  ret {| status := status;
         confidence := Js.Math_round confidence;
         metrics := {| pitch := Js.Math_round mockPitch;
                       volume := Js.Math_round mockVolume;
                       duration := recordingTime;
                       clarity := Js.Math_round mockClarity |};
         details := details;
         recommendations := recommendations |}.

Definition tooShort : string :=
  "Recording too short. Please speak for at least 3 seconds.".
Definition microphoneDenied : string :=
  "Could not access microphone. Please check permissions.".

(** *** The handlers *)

Section Handlers.

Variable random : nat -> Q.

(** [updateLevel], as defined by the [monitorAudioLevel] of render
    [rho]: [isRecording] is that render's. *)
Definition updateLevel (rho : State) (w : World) : World :=
  match analyserRef (refs w) with
  | None => w
  | Some _ =>
      if negb (isRecording rho) then w
      else
        let dataArray := getByteFrequencyData w in
        let average :=
          reduceSum dataArray / inject_Z (Z.of_nat (length dataArray)) in
        let w := setAudioLevel (Js.Math_min 100 (average / 255 * 100)) w in
        let (id, w) := requestAnimationFrame rho w in
        setAnimationFrameRef (Some id) w
  end.

Definition monitorAudioLevel (rho : State) (w : World) : World :=
  match analyserRef (refs w) with
  | None => w
  | Some _ => updateLevel rho w
  end.

(** The interval callback: [setRecordingTime(prev => prev + 1)]. *)
Definition tick (w : World) : World :=
  setRecordingTime (fun prev => (prev + 1)%Z) w.

(** [startRecording] from the answer of [getUserMedia] on. *)
Definition startRecording_granted (rho : State) (res : Js.Settled unit)
    (w : World) : Async Request World :=
  match res with
  | Js.Fulfilled _ =>
      let (stream, w) := newStream w in
      let (context, w) := newAudioContext w in
      let w := setAudioContextRef (Some context) w in
      let w := setAnalyserRef (Some context) w in
      let (mediaRecorder, w) := newMediaRecorder stream rho w in
      let w := setMediaRecorderRef (Some mediaRecorder) w in
      let w := recorderStart mediaRecorder w in
      let w := setIsRecording true w in
      let (timer, w) := setInterval w in
      let w := setTimerRef (Some timer) w in
      Resolved (monitorAudioLevel rho w)
  | Js.Rejected => Resolved (setError (Some microphoneDenied) w)
  end.

Definition startRecording (rho : State) (w : World)
  : Async Request World :=
  let w := setError None w in
  let w := setRecordingTime (fun _ => 0%Z) w in
  let w := setAudioChunksRef [] w in
  Suspended GetUserMedia w (startRecording_granted rho).

Definition stopRecording (rho : State) (w : World) : World :=
  match mediaRecorderRef (refs w) with
  | Some mediaRecorder =>
      if isRecording rho then
        let w := recorderStop mediaRecorder w in
        let w := setIsRecording false w in
        let w := whenHandle (timerRef (refs w))
                   (fun id w => setTimerRef None (clearInterval id w)) w in
        let w := whenHandle (animationFrameRef (refs w))
                   (fun id w =>
                      setAnimationFrameRef None (cancelAnimationFrame id w))
                   w in
        match audioContextRef (refs w) with
        | Some context => setAudioContextRef None (closeContext context w)
        | None => w
        end
      else w
  | None => w
  end.

(** [analyzeVoice] of render [rho], after its two-second wait. *)
Definition analyzeVoice_resume (rho : State) (_ : unit) (w : World)
  : Async Request World :=
  if Js.lt (recordingTime rho) 3 then
    let w := setError (Some tooShort) w in
    let w := setIsAnalyzing false w in
    Resolved (setRecordingTime (fun _ => 0%Z) w)
  else
    let (result, w) := sample random (produce (recordingTime rho)) w in
    let w := setAnalysisResult (Some result) w in
    let w := setIsAnalyzing false w in
    Resolved (setRecordingTime (fun _ => 0%Z) w).

Definition analyzeVoice (rho : State) (w : World) : Async Request World :=
  let w := setIsAnalyzing true w in
  let w := setError None w in
  Suspended (SetTimeout 2000) w (analyzeVoice_resume rho).

(** [mediaRecorder.ondataavailable]. *)
Definition ondataavailable (size : nat) (w : World) : World :=
  if (0 <? size)%nat
  then setAudioChunksRef (audioChunksRef (refs w) ++ [size]) w
  else w.

(** [mediaRecorder.onstop] of recorder [m]. *)
Definition onstopHandler (m : MediaRecorder) (w : World)
  : Async Request World :=
  let w := stopTracks (stream m) w in
  analyzeVoice (onstop m) w.

Definition resetAnalysis (w : World) : World :=
  let w := setAnalysisResult None w in
  let w := setError None w in
  let w := setRecordingTime (fun _ => 0%Z) w in
  setAudioLevel 0 w.


End Handlers.

(** *** The component in its host: events and the event loop *)

(** The first render. *)
Definition initial : World :=
  {| state := {| isRecording := false; isAnalyzing := false;
                 analysisResult := None; error := None;
                 recordingTime := 0; audioLevel := 0 |};
     refs := {| mediaRecorderRef := None; audioContextRef := None;
                analyserRef := None; audioChunksRef := [];
                animationFrameRef := None; timerRef := None |};
     host := {| streams := []; recorders := []; contexts := [];
                intervals := []; frameRequests := []; frameHandles := 0;
                stopEvents := []; spectrum := []; draws := 0 |} |}.

Inductive Button : Type := StartRecording | StopAndAnalyze | NewAnalysis.

(** Which buttons the JSX of a render shows, enabled. *)
Definition clickable (rho : State) (b : Button) : bool :=
  match b, analysisResult rho with
  | StartRecording, None => negb (isRecording rho) && negb (isAnalyzing rho)
  | StopAndAnalyze, None => isRecording rho
  | NewAnalysis, Some _ => true
  | _, _ => false
  end.

(** What the host can make happen. *)
Inductive Event : Type :=
| Click (b : Button)
| Permission (i : nat) (res : Js.Settled unit)
    (** the [i]-th pending await, a [getUserMedia], settles *)
| Elapsed (i : nat)
    (** the [i]-th pending await, a timeout, is over *)
| Second
    (** one second passes: every live interval fires *)
| Frame (data : list byte)
    (** a new frame: the analysers report [data], the requested frame
        callbacks run *)
| RecorderStopped (size : nat).
    (** the oldest queued recorder task runs: [dataavailable] with a blob
        of [size] bytes, then [stop] *)

(** A handler waiting at an [await]. *)
Record Pending : Type := {
  answerType : Type;
  request : Request answerType;
  continuation : answerType -> World -> Async Request World
}.

Record System : Type := { world : World; pending : list Pending }.

Definition setWorld (w : World) (s : System) : System :=
  {| world := w; pending := pending s |}.

(** Run a handler up to its end or its next [await]. *)
Definition launch (a : Async Request World) (s : System) : System :=
  match a with
  | Resolved w => setWorld w s
  | Suspended req w k =>
      {| world := w;
         pending := pending s
           ++ [{| answerType := _; request := req; continuation := k |}] |}
  end.

Definition withoutPending (i : nat) (s : System) : System :=
  {| world := world s; pending := delete i (pending s) |}.

Definition settle (i : nat) (res : Js.Settled unit) (s : System) : System :=
  match pending s !! i with
  | Some {| request := req; continuation := k |} =>
      match req in Request R
            return (R -> World -> Async Request World) -> System with
      | GetUserMedia => fun k =>
          launch (k res (world s)) (withoutPending i s)
      | SetTimeout _ => fun _ => s
      end k
  | None => s
  end.

Definition wake (i : nat) (s : System) : System :=
  match pending s !! i with
  | Some {| request := req; continuation := k |} =>
      match req in Request R
            return (R -> World -> Async Request World) -> System with
      | GetUserMedia => fun _ => s
      | SetTimeout _ => fun k =>
          launch (k tt (world s)) (withoutPending i s)
      end k
  | None => s
  end.

Section EventLoop.

Variable random : nat -> Q.

(** A click runs the handler of the render on screen. *)
Definition click (b : Button) (s : System) : System :=
  let w := world s in
  if clickable (state w) b then
    match b with
    | StartRecording => launch (startRecording (state w) w) s
    | StopAndAnalyze => setWorld (stopRecording (state w) w) s
    | NewAnalysis => setWorld (resetAnalysis w) s
    end
  else s.

Definition second (w : World) : World :=
  fold_left (fun w live => if live : bool then tick w else w)
            (intervals (host w)) w.

Definition frame (data : list byte) (w : World) : World :=
  let w := setSpectrum data w in
  let callbacks := frameRequests (host w) in
  let w := setFrameRequests [] (frameHandles (host w)) w in
  fold_left (fun w callback => updateLevel (snd callback) w) callbacks w.

Definition recorderStopped (size : nat) (s : System) : System :=
  let w := world s in
  match stopEvents (host w) with
  | r :: rest =>
      let w := setStopEvents rest w in
      match recorders (host w) !! r with
      | Some m =>
          let w := ondataavailable size w in
          launch (onstopHandler random m w) s
      | None => setWorld w s
      end
  | [] => s
  end.

Definition step (s : System) (e : Event) : System :=
  match e with
  | Click b => click b s
  | Permission i res => settle i res s
  | Elapsed i => wake i s
  | Second => setWorld (second (world s)) s
  | Frame data => setWorld (frame data (world s)) s
  | RecorderStopped size => recorderStopped size s
  end.

Definition run (events : list Event) (s : System) : System :=
  fold_left step events s.

Definition mounted : System := {| world := initial; pending := [] |}.

End EventLoop.

(** The component [t] seconds into the first recording of a fresh mount:
    the state reached by a click on Start and a granted permission, the
    interval having fired [t] times (lemma [started_recording] below). *)
Definition recordingAt (t : Z) : System :=
  {| world :=
       {| state := {| isRecording := true; isAnalyzing := false;
                      analysisResult := None; error := None;
                      recordingTime := t; audioLevel := 0 |};
          refs := {| mediaRecorderRef := Some 0%nat;
                     audioContextRef := Some 0%nat;
                     analyserRef := Some 0%nat; audioChunksRef := [];
                     animationFrameRef := None; timerRef := Some 1%nat |};
          host := {| streams := [true];
                     recorders :=
                       [{| stream := 0; recording := true;
                           onstop := state initial |}];
                     contexts := [true]; intervals := [true];
                     frameRequests := []; frameHandles := 0;
                     stopEvents := []; spectrum := []; draws := 0 |} |};
     pending := [] |}.

(** The same with the analyser reporting [data]. *)
Definition heard (data : list byte) (s : System) : System :=
  setWorld (setSpectrum data (world s)) s.

(** A second recording started in the render that follows a click on Stop,
    before the first recorder's stop event is delivered: five seconds are
    recorded and stopped, Start is clicked at once, the first recorder's
    events arrive, permission is granted, the first analysis wait ends, one
    second is recorded and stopped. *)
Definition secondStop : list Event :=
  [Click StartRecording; Permission 0 (Js.Fulfilled tt)]
  ++ repeat Second 5
  ++ [Click StopAndAnalyze; Click StartRecording; RecorderStopped 1;
      Permission 0 (Js.Fulfilled tt); Elapsed 0; Second;
      Click StopAndAnalyze].

(** The render in which Start is clicked the second time in [secondStop]:
    the elapsed time still shows the five seconds of the first recording. *)
Definition staleRender : State :=
  {| isRecording := false; isAnalyzing := false; analysisResult := None;
     error := None; recordingTime := 5; audioLevel := 0 |}.

(** [formatTime] (lines 251-255), for a whole number of seconds of
    magnitude below 2^53: there the number, its quotient by 60 and the
    floor of it are exact as doubles, so [Math.floor(seconds / 60)] is the
    floor quotient and [%] the remainder with the sign of the dividend.
    Beyond that range a double no longer holds every integer and the
    definition says nothing of the code. *)
Definition formatTime (seconds : Z) : string :=
  let mins := (seconds / 60)%Z in
  let secs := Z.rem seconds 60 in
  Js.toString mins ++ ":" ++ Js.padStart2 (Js.toString secs).

(** The character of a decimal digit. *)
Definition digit (d : Z) : ascii := ascii_of_nat (48 + Z.to_nat d).

(** What the level monitor shows of a world: the level published and the
    frame callbacks requested. *)
Definition meter (w : World) : Q * list (nat * State) :=
  (audioLevel (state w), frameRequests (host w)).

Definition silent (w : World) : Prop := meter w = (0, []).

(** The handlers the component can have waiting at an [await]: a
    [startRecording] of a render that was not recording, or an
    [analyzeVoice]. *)
Inductive idlePending (random : nat -> Q) : Pending -> Prop :=
| idle_start (rho : State) :
    isRecording rho = false ->
    idlePending random
      {| request := GetUserMedia;
         continuation := startRecording_granted rho |}
| idle_analysis (rho : State) (ms : Z) :
    idlePending random
      {| request := SetTimeout ms;
         continuation := analyzeVoice_resume random rho |}.

Definition quiet (random : nat -> Q) (s : System) : Prop :=
  silent (world s) /\ Forall (idlePending random) (pending s).

End VoiceAnalysis.

(** ** Vocabulary of the statements *)

(** Every draw of the source is a number of [[0,1)], as [Math.random]
    promises. *)
Definition unitDraws (random : nat -> Q) : Prop :=
  forall i, 0 <= random i /\ random i < 1.

(** The status and the unrounded confidence a classifier run chose. *)
Definition rawStatus (c : HealthStatus * Q * list string * list string)
  : HealthStatus := fst (fst (fst c)).
Definition rawConfidence (c : HealthStatus * Q * list string * list string)
  : Q := snd (fst (fst c)).

(** The table of section 4.5, with its two boundary rows. *)
Definition band (r : Q) (status : HealthStatus) (confidence : Z) : Prop :=
  (0.7 < r -> status = Some healthy /\ (75 <= confidence <= 95)%Z) /\
  (0.35 < r /\ r <= 0.7 ->
   status = Some needs_consultation /\ (60 <= confidence <= 75)%Z) /\
  (r <= 0.35 -> status = Some high_risk /\ (55 <= confidence <= 65)%Z) /\
  (r == 0.7 -> status = Some needs_consultation) /\
  (r == 0.35 -> status = Some high_risk).

(** * Properties *)

(** ** Numbers *)

Lemma Math_round_between (x : Q) (a b : Z) :
  inject_Z a <= x -> x <= inject_Z b -> (a <= Js.Math_round x <= b)%Z.
Proof.
  intros Ha Hb. unfold Js.Math_round. split.
  - rewrite <- (Qfloor_Z a). apply Qfloor_resp_le.
    apply Qle_trans with x; [exact Ha|].
    rewrite <- (Qplus_0_r x) at 1. apply Qplus_le_r. discriminate.
  - assert (E : Qfloor (inject_Z b + (1 # 2)) = b).
    { unfold Qfloor, Qplus, inject_Z. simpl.
      symmetry. apply Z.div_unique with (r := 1%Z); lia. }
    apply Z.le_trans with (Qfloor (inject_Z b + (1 # 2))); [|rewrite E; lia].
    apply Qfloor_resp_le. apply Qplus_le_l. exact Hb.
Qed.

Lemma Math_round_nearest (x : Q) :
  x - (1 # 2) < inject_Z (Js.Math_round x) /\
  inject_Z (Js.Math_round x) <= x + (1 # 2).
Proof.
  unfold Js.Math_round. split.
  - pose proof (Qlt_floor (x + (1 # 2))) as H.
    rewrite inject_Z_plus in H.
    apply Qplus_lt_l with (z := 1).
    eapply Qle_lt_trans; [|exact H].
    ring_simplify. apply Qle_refl.
  - apply Qfloor_le.
Qed.

Lemma gt_true (x y : Q) : Js.gt x y = true <-> y < x.
Proof.
  unfold Js.gt. rewrite negb_true_iff. split.
  - intros H. apply Qnot_le_lt. intros L. apply Qle_bool_iff in L. congruence.
  - intros H. destruct (Qle_bool x y) eqn:E; [|reflexivity].
    apply Qle_bool_iff in E. exfalso. exact (Qlt_not_le _ _ H E).
Qed.

Lemma gt_false (x y : Q) : Js.gt x y = false <-> x <= y.
Proof.
  unfold Js.gt. rewrite negb_false_iff. apply Qle_bool_iff.
Qed.

(** [base + u * span] for a draw [u] of [[0,1)] lies in
    [[base, base + span]]. *)
Lemma scaled_draw (u : Q) (base span : Z) :
  0 <= u -> u < 1 -> (0 <= span)%Z ->
  inject_Z base <= inject_Z base + u * inject_Z span /\
  inject_Z base + u * inject_Z span <= inject_Z (base + span).
Proof.
  intros H0 H1 Hs.
  assert (Hs' : 0 <= inject_Z span).
  { change 0 with (inject_Z 0). rewrite <- Zle_Qle. exact Hs. }
  split.
  - rewrite <- (Qplus_0_r (inject_Z base)) at 1.
    apply Qplus_le_r. apply Qmult_le_0_compat; assumption.
  - rewrite inject_Z_plus. apply Qplus_le_r.
    rewrite <- (Qmult_1_l (inject_Z span)) at 2.
    apply Qmult_le_compat_r; [apply Qlt_le_weak; exact H1 | exact Hs'].
Qed.

Lemma round_scaled (u : Q) (base span : Z) :
  0 <= u -> u < 1 -> (0 <= span)%Z ->
  (base <= Js.Math_round (inject_Z base + u * inject_Z span) <= base + span)%Z.
Proof.
  intros H0 H1 Hs. destruct (scaled_draw u base span H0 H1 Hs) as [L U].
  apply Math_round_between; assumption.
Qed.

(** ** The classifier *)

(** A closed comparison of numbers that is false. *)
Ltac refute_closed H :=
  exfalso; revert H; vm_compute;
  let X := fresh in intro X; solve [discriminate X | apply X; reflexivity].

Lemma band_intro (r u : Q) (status : HealthStatus) (raw : Q) :
  0 <= u -> u < 1 ->
  (if Js.gt r 0.7 then status = Some healthy /\ raw = 75 + u * 20
   else if Js.gt r 0.35
        then status = Some needs_consultation /\ raw = 60 + u * 15
        else status = Some high_risk /\ raw = 55 + u * 10) ->
  band r status (Js.Math_round raw).
Proof.
  intros H0 H1 Hc. unfold band.
  destruct (Js.gt r 0.7) eqn:E7.
  - destruct Hc as [-> ->]. apply gt_true in E7.
    split; [intros _; split;
            [reflexivity | exact (round_scaled u 75 20 H0 H1 ltac:(lia))] |].
    split; [intros [_ Hle]; exfalso; exact (Qlt_not_le _ _ E7 Hle) |].
    split; [intros Hle; exfalso; apply (Qlt_not_le _ _ E7);
            apply Qle_trans with 0.35; [exact Hle | discriminate] |].
    split; intros Heq; rewrite Heq in E7; refute_closed E7.
  - apply gt_false in E7. destruct (Js.gt r 0.35) eqn:E3.
    + destruct Hc as [-> ->]. apply gt_true in E3.
      split; [intros Hlt; exfalso; exact (Qlt_not_le _ _ Hlt E7) |].
      split; [intros _; split;
              [reflexivity | exact (round_scaled u 60 15 H0 H1 ltac:(lia))] |].
      split; [intros Hle; exfalso; exact (Qlt_not_le _ _ E3 Hle) |].
      split; [reflexivity |].
      intros Heq; rewrite Heq in E3; refute_closed E3.
    + destruct Hc as [-> ->]. apply gt_false in E3.
      split; [intros Hlt; exfalso; exact (Qlt_not_le _ _ Hlt E7) |].
      split; [intros [Hlt _]; exfalso; exact (Qlt_not_le _ _ Hlt E3) |].
      split; [intros _; split;
              [reflexivity | exact (round_scaled u 55 10 H0 H1 ltac:(lia))] |].
      split; [|reflexivity].
      intros Heq; rewrite Heq in E3; refute_closed E3.
Qed.

Lemma face_classify_cases (random : nat -> Q) (n : nat) :
  let c := fst (FaceScan.classify random n) in
  let r := random n in
  let u := random (S n) in
  snd (FaceScan.classify random n) = S (S n) /\
  (if Js.gt r 0.7
   then rawStatus c = Some healthy /\ rawConfidence c = 75 + u * 20
   else if Js.gt r 0.35
        then rawStatus c = Some needs_consultation
             /\ rawConfidence c = 60 + u * 15
        else rawStatus c = Some high_risk /\ rawConfidence c = 55 + u * 10).
Proof.
  unfold FaceScan.classify, bind, Math_random, ret; cbn zeta.
  destruct (Js.gt (random n) 0.7); [cbn; auto|].
  destruct (Js.gt (random n) 0.35); cbn; auto.
Qed.

Lemma voice_classify_cases (random : nat -> Q) (n : nat) :
  let c := fst (VoiceAnalysis.classify random n) in
  let r := random n in
  let u := random (S n) in
  snd (VoiceAnalysis.classify random n) = S (S n) /\
  (if Js.gt r 0.7
   then rawStatus c = Some healthy /\ rawConfidence c = 75 + u * 20
   else if Js.gt r 0.35
        then rawStatus c = Some needs_consultation
             /\ rawConfidence c = 60 + u * 15
        else rawStatus c = Some high_risk /\ rawConfidence c = 55 + u * 10).
Proof.
  unfold VoiceAnalysis.classify, bind, Math_random, ret; cbn zeta.
  destruct (Js.gt (random n) 0.7); [cbn; auto|].
  destruct (Js.gt (random n) 0.35); cbn; auto.
Qed.

(** What [produce] hands to [setAnalysisResult], in terms of the
    classifier run it contains. *)
Lemma face_produce_eq (random : nat -> Q) (n : nat) :
  let c := fst (FaceScan.classify random n) in
  FaceScan.produce random n =
  ({| FaceScan.status := rawStatus c;
      FaceScan.confidence := Js.Math_round (rawConfidence c);
      FaceScan.details := snd (fst c);
      FaceScan.recommendations := snd c |}, S (S n)).
Proof.
  cbn zeta. unfold FaceScan.produce, bind.
  pose proof (face_classify_cases random n) as [Hn _].
  destruct (FaceScan.classify random n) as [[[[s q] d] r] n'].
  cbn in *. subst n'. reflexivity.
Qed.

Lemma voice_produce_eq (recordingTime : Z) (random : nat -> Q) (n : nat) :
  let c := fst (VoiceAnalysis.classify random (3 + n)%nat) in
  VoiceAnalysis.produce recordingTime random n =
  ({| VoiceAnalysis.status := rawStatus c;
      VoiceAnalysis.confidence := Js.Math_round (rawConfidence c);
      VoiceAnalysis.metrics :=
        {| VoiceAnalysis.pitch := Js.Math_round (100 + random n * 100);
           VoiceAnalysis.volume := Js.Math_round (50 + random (1 + n)%nat * 40);
           VoiceAnalysis.duration := recordingTime;
           VoiceAnalysis.clarity :=
             Js.Math_round (70 + random (2 + n)%nat * 25) |};
      VoiceAnalysis.details := snd (fst c);
      VoiceAnalysis.recommendations := snd c |}, (5 + n)%nat).
Proof.
  cbn zeta. unfold VoiceAnalysis.produce, bind, Math_random.
  pose proof (voice_classify_cases random (3 + n)%nat) as [Hn _].
  cbn [Nat.add] in *.
  destruct (VoiceAnalysis.classify random (S (S (S n)))) as [[[[s q] d] r] n'].
  cbn in *. subst n'. reflexivity.
Qed.

(** C1.  Whatever the draws (each in [[0,1)]), the result the face
    analysis and the voice analysis produce follows the table: with [r] the
    draw taken as [randomFactor], the status is [healthy] and the
    confidence is in [[75,95]] when [r > 0.7], [needs-consultation] and
    [[60,75]] when [0.35 < r <= 0.7], [high-risk] and [[55,65]] when
    [r <= 0.35]; [r = 0.7] gives [needs-consultation] and [r = 0.35] gives
    [high-risk]; and the confidence is the unrounded one rounded to the
    nearest integer. *)
Theorem classifier_bands :
  forall (random : nat -> Q) (n : nat) (recordingTime : Z),
    unitDraws random ->
    let face := fst (FaceScan.produce random n) in
    let voice := fst (VoiceAnalysis.produce recordingTime random n) in
    let faceRun := fst (FaceScan.classify random n) in
    let voiceRun := fst (VoiceAnalysis.classify random (3 + n)%nat) in
    band (random n) (FaceScan.status face) (FaceScan.confidence face) /\
    band (random (3 + n)%nat)
         (VoiceAnalysis.status voice) (VoiceAnalysis.confidence voice) /\
    FaceScan.confidence face = Js.Math_round (rawConfidence faceRun) /\
    VoiceAnalysis.confidence voice = Js.Math_round (rawConfidence voiceRun) /\
    (forall x : Q,
        x - (1 # 2) < inject_Z (Js.Math_round x) /\
        inject_Z (Js.Math_round x) <= x + (1 # 2)).
Proof.
  intros random n recordingTime Hu. cbn zeta.
  rewrite face_produce_eq, voice_produce_eq. cbn [fst].
  cbn [FaceScan.status FaceScan.confidence
       VoiceAnalysis.status VoiceAnalysis.confidence].
  split; [|split; [|split; [reflexivity | split; [reflexivity |]]]].
  - destruct (Hu (S n)) as [H0 H1].
    apply (band_intro _ (random (S n))); [assumption..|].
    exact (proj2 (face_classify_cases random n)).
  - destruct (Hu (S (3 + n)%nat)) as [H0 H1].
    apply (band_intro _ (random (S (3 + n)%nat))); [assumption..|].
    exact (proj2 (voice_classify_cases random (3 + n)%nat)).
  - exact Math_round_nearest.
Qed.

Lemma classifier_bands_witness :
  let random := fun i : nat =>
    match i with 0%nat | 3%nat => 0.7 | _ => 1 # 2 end in
  FaceScan.status (fst (FaceScan.produce random 0%nat)) = Some needs_consultation
  /\ VoiceAnalysis.status (fst (VoiceAnalysis.produce 10 random 0%nat))
     = Some needs_consultation
  /\ (60 <= FaceScan.confidence (fst (FaceScan.produce random 0%nat)) <= 75)%Z.
Proof.
  cbn zeta.
  assert (Hu : unitDraws (fun i : nat =>
                 match i with 0%nat | 3%nat => 0.7 | _ => 1 # 2 end)).
  { intros i. destruct i as [|[|[|[|i]]]]; split; vm_compute; congruence. }
  destruct (classifier_bands _ 0%nat 10%Z Hu)
    as [(_ & _ & _ & F7 & _) [(_ & _ & _ & V7 & _) _]].
  destruct (classifier_bands _ 0%nat 10%Z Hu) as [(_ & F & _) _].
  split; [apply F7; reflexivity|].
  split; [apply V7; reflexivity|].
  apply F. split; vm_compute; congruence.
Defined.

(** ** The catalog *)

Lemma face_lines_cases (random : nat -> Q) (n : nat) :
  let c := fst (FaceScan.classify random n) in
  (rawStatus c = Some healthy
   /\ snd (fst c) = snd (fst (fst (FaceScan.classify (fun _ => 1) 0%nat)))
   /\ snd c = snd (fst (FaceScan.classify (fun _ => 1) 0%nat)))
  \/ (rawStatus c = Some needs_consultation
      /\ snd (fst c) = snd (fst (fst (FaceScan.classify (fun _ => 1 # 2) 0%nat)))
      /\ snd c = snd (fst (FaceScan.classify (fun _ => 1 # 2) 0%nat)))
  \/ (rawStatus c = Some high_risk
      /\ snd (fst c) = snd (fst (fst (FaceScan.classify (fun _ => 0) 0%nat)))
      /\ snd c = snd (fst (FaceScan.classify (fun _ => 0) 0%nat))).
Proof.
  unfold FaceScan.classify, bind, Math_random, ret; cbn zeta.
  destruct (Js.gt (random n) 0.7); [left; repeat split|].
  destruct (Js.gt (random n) 0.35);
    [right; left; repeat split | right; right; repeat split].
Qed.

Lemma voice_lines_cases (random : nat -> Q) (n : nat) :
  let c := fst (VoiceAnalysis.classify random n) in
  (rawStatus c = Some healthy
   /\ snd (fst c)
      = snd (fst (fst (VoiceAnalysis.classify (fun _ => 1) 0%nat)))
   /\ snd c = snd (fst (VoiceAnalysis.classify (fun _ => 1) 0%nat)))
  \/ (rawStatus c = Some needs_consultation
      /\ snd (fst c)
         = snd (fst (fst (VoiceAnalysis.classify (fun _ => 1 # 2) 0%nat)))
      /\ snd c = snd (fst (VoiceAnalysis.classify (fun _ => 1 # 2) 0%nat)))
  \/ (rawStatus c = Some high_risk
      /\ snd (fst c)
         = snd (fst (fst (VoiceAnalysis.classify (fun _ => 0) 0%nat)))
      /\ snd c = snd (fst (VoiceAnalysis.classify (fun _ => 0) 0%nat))).
Proof.
  unfold VoiceAnalysis.classify, bind, Math_random, ret; cbn zeta.
  destruct (Js.gt (random n) 0.7); [left; repeat split|].
  destruct (Js.gt (random n) 0.35);
    [right; left; repeat split | right; right; repeat split].
Qed.

(** C4, as the code has it.  In each mode the detail lines and the
    recommendation lines of a result are a function of its status alone:
    every analysis that yields a status yields the same strings in the same
    order.  The lists have four or five lines, except the recommendations
    of a healthy face result, which are three. *)
Theorem catalog_by_status :
  (exists catalog : HealthStatus -> list string * list string,
      forall (random : nat -> Q) (n : nat),
        let result := fst (FaceScan.produce random n) in
        (FaceScan.details result, FaceScan.recommendations result)
        = catalog (FaceScan.status result)
        /\ (4 <= length (FaceScan.details result) <= 5)%nat
        /\ (3 <= length (FaceScan.recommendations result) <= 5)%nat
        /\ (FaceScan.status result <> Some healthy ->
            (4 <= length (FaceScan.recommendations result) <= 5)%nat))
  /\ (exists catalog : HealthStatus -> list string * list string,
         forall (recordingTime : Z) (random : nat -> Q) (n : nat),
           let result := fst (VoiceAnalysis.produce recordingTime random n) in
           (VoiceAnalysis.details result, VoiceAnalysis.recommendations result)
           = catalog (VoiceAnalysis.status result)
           /\ (4 <= length (VoiceAnalysis.details result) <= 5)%nat
           /\ (4 <= length (VoiceAnalysis.recommendations result) <= 5)%nat).
Proof.
  split.
  - exists (fun s =>
      let lines := fun r : Q =>
        let c := fst (FaceScan.classify (fun _ => r) 0%nat) in
        (snd (fst c), snd c) in
      match s with
      | Some healthy => lines 1
      | Some needs_consultation => lines (1 # 2)
      | _ => lines 0
      end).
    intros random n. cbn zeta. rewrite face_produce_eq. cbn [fst].
    cbn [FaceScan.status FaceScan.details FaceScan.recommendations].
    destruct (face_lines_cases random n) as [(-> & -> & ->)|[(-> & -> & ->)|(-> & -> & ->)]];
      (split; [reflexivity|]); vm_compute length;
      repeat split; solve [lia | congruence].
  - exists (fun s =>
      let lines := fun r : Q =>
        let c := fst (VoiceAnalysis.classify (fun _ => r) 0%nat) in
        (snd (fst c), snd c) in
      match s with
      | Some healthy => lines 1
      | Some needs_consultation => lines (1 # 2)
      | _ => lines 0
      end).
    intros recordingTime random n. cbn zeta. rewrite voice_produce_eq.
    cbn [fst].
    cbn [VoiceAnalysis.status VoiceAnalysis.details
         VoiceAnalysis.recommendations].
    destruct (voice_lines_cases random (3 + n)%nat)
      as [(-> & -> & ->)|[(-> & -> & ->)|(-> & -> & ->)]];
      (split; [reflexivity|]); vm_compute length; repeat split; lia.
Qed.

Lemma catalog_by_status_witness :
  let result := fst (FaceScan.produce (fun _ => 1 # 2) 0%nat) in
  FaceScan.status result <> Some healthy
  /\ (4 <= length (FaceScan.recommendations result) <= 5)%nat.
Proof.
  cbn zeta. split; [vm_compute; congruence|].
  destruct catalog_by_status as [[catalog H] _].
  destruct (H (fun _ => 1 # 2) 0%nat) as (_ & _ & _ & L).
  apply L. vm_compute; congruence.
Defined.

(** C4 as stated fails: a healthy face result carries three recommendation
    lines, not four or five. *)
Lemma catalog_face_healthy_three_lines :
  let result := fst (FaceScan.produce (fun _ => 9 # 10) 0%nat) in
  FaceScan.status result = Some healthy
  /\ length (FaceScan.recommendations result) = 3%nat
  /\ ~ (4 <= length (FaceScan.recommendations result) <= 5)%nat.
Proof.
  cbn zeta. split; [reflexivity|]. split; [reflexivity|].
  vm_compute. intros [H _]. repeat apply le_S_n in H. inversion H.
Qed.

(** ** The detection-confidence proxy *)

(** C10.  In [analyzeHealth] the proxy [predictions[0]?.probability || 0.95]
    is [0.95] whenever the first region's probability is falsy: absent,
    [NaN], or the number zero. *)
Theorem detectionConfidence_falsy :
  forall (topLeft bottomRight : Q * Q) (rest : list FaceScan.Prediction),
    let first := fun v =>
      {| FaceScan.topLeft := topLeft; FaceScan.bottomRight := bottomRight;
         FaceScan.probability := v |} in
    FaceScan.detectionConfidence (first (Js.number 0) :: rest)
    = Js.number 0.95
    /\ FaceScan.detectionConfidence (first Js.undefined :: rest)
       = Js.number 0.95
    /\ FaceScan.detectionConfidence (first Js.NaN :: rest) = Js.number 0.95
    /\ (forall q : Q, ~ q == 0 ->
          FaceScan.detectionConfidence (first (Js.number q) :: rest)
          = Js.number q).
Proof.
  intros topLeft bottomRight rest. cbn zeta.
  repeat split; try reflexivity.
  intros q Hq. unfold FaceScan.detectionConfidence, Js.or. cbn.
  destruct (Qeq_bool q 0) eqn:E; [|reflexivity].
  apply Qeq_bool_iff in E. contradiction.
Qed.

Lemma detectionConfidence_falsy_witness :
  FaceScan.detectionConfidence
    [{| FaceScan.topLeft := (0, 0); FaceScan.bottomRight := (1, 1);
        FaceScan.probability := Js.number 0.98 |}]
  = Js.number 0.98.
Proof.
  refine (proj2 (proj2 (proj2
            (detectionConfidence_falsy (0, 0) (1, 1) []))) 0.98 _).
  vm_compute. congruence.
Defined.

(** ** Reset *)

(** C9.  In every world, reachable or not, [resetAnalysis] leaves no
    result and no error and puts every transient value back to what it was
    at the first render: elapsed time and audio level zero (voice), a blank
    canvas (face). *)
Theorem reset_restores_initial :
  (forall w : VoiceAnalysis.World,
      let s := VoiceAnalysis.state (VoiceAnalysis.resetAnalysis w) in
      let s0 := VoiceAnalysis.state VoiceAnalysis.initial in
      VoiceAnalysis.analysisResult s = None
      /\ VoiceAnalysis.error s = None
      /\ VoiceAnalysis.recordingTime s = 0%Z
      /\ VoiceAnalysis.audioLevel s = 0
      /\ VoiceAnalysis.recordingTime s = VoiceAnalysis.recordingTime s0
      /\ VoiceAnalysis.audioLevel s = VoiceAnalysis.audioLevel s0)
  /\ (forall w : FaceScan.World,
         let w' := FaceScan.resetAnalysis w in
         FaceScan.analysisResult (FaceScan.state w') = None
         /\ FaceScan.error (FaceScan.state w') = None
         /\ FaceScan.artifacts w' = []
         /\ FaceScan.artifacts w' = FaceScan.artifacts FaceScan.initial).
Proof.
  split.
  - intros w. cbn. repeat split.
  - intros w. cbn zeta.
    assert (A : FaceScan.artifacts (FaceScan.resetAnalysis w) = []).
    { unfold FaceScan.resetAnalysis, FaceScan.artifacts.
      destruct w as [s v [c|] sr ss d]; cbn; [|reflexivity].
      unfold FaceScan.clearRect. cbn.
      rewrite !Z.leb_refl. reflexivity. }
    unfold FaceScan.resetAnalysis in *.
    destruct w as [s v [c|] sr ss d]; cbn in *; repeat split; exact A.
Qed.

(** ** Stop *)

Lemma stopRecording_cases (rho : VoiceAnalysis.State)
    (w : VoiceAnalysis.World) :
  VoiceAnalysis.stopRecording rho w = w
  \/ VoiceAnalysis.isRecording
       (VoiceAnalysis.state (VoiceAnalysis.stopRecording rho w)) = false.
Proof.
  unfold VoiceAnalysis.stopRecording.
  destruct (VoiceAnalysis.mediaRecorderRef (VoiceAnalysis.refs w));
    [|left; reflexivity].
  destruct (VoiceAnalysis.isRecording rho); [right|left; reflexivity].
  unfold VoiceAnalysis.whenHandle.
  repeat match goal with
         | |- context [match ?o with _ => _ end] => destruct o
         end; reflexivity.
Qed.

(** C8.  With no camera session active, [stopCamera] changes nothing, and
    a second [stopCamera] changes nothing after a first.  [stopRecording]
    run from a render that is not recording (or with no recorder) changes
    nothing, and run again from the render that follows a first
    [stopRecording] it changes nothing. *)
Theorem stop_is_idempotent :
  (forall w : FaceScan.World,
      FaceScan.sessionActive w = false -> FaceScan.stopCamera w = w)
  /\ (forall w : FaceScan.World,
         FaceScan.stopCamera (FaceScan.stopCamera w) = FaceScan.stopCamera w)
  /\ (forall (rho : VoiceAnalysis.State) (w : VoiceAnalysis.World),
         VoiceAnalysis.isRecording rho = false
         \/ VoiceAnalysis.mediaRecorderRef (VoiceAnalysis.refs w) = None ->
         VoiceAnalysis.stopRecording rho w = w)
  /\ (forall w : VoiceAnalysis.World,
         let w' := VoiceAnalysis.stopRecording (VoiceAnalysis.state w) w in
         VoiceAnalysis.stopRecording (VoiceAnalysis.state w') w' = w').
Proof.
  repeat split.
  - intros [[ml m an ca ar er] [[so pl]|] c [sr|] ss d];
      unfold FaceScan.sessionActive, FaceScan.stopCamera; cbn;
      try discriminate.
    + destruct ca; cbn; [discriminate|]. destruct so; [discriminate|].
      reflexivity.
    + destruct ca; cbn; [discriminate|]. reflexivity.
  - intros [[ml m an ca ar er] [[so pl]|] c [sr|] ss d];
      unfold FaceScan.stopCamera; cbn; reflexivity.
  - intros rho w [H|H]; unfold VoiceAnalysis.stopRecording.
    + rewrite H. destruct (VoiceAnalysis.mediaRecorderRef _); reflexivity.
    + rewrite H. reflexivity.
  - intros w. cbn zeta.
    destruct (stopRecording_cases (VoiceAnalysis.state w) w) as [E|N].
    + rewrite !E. reflexivity.
    + unfold VoiceAnalysis.stopRecording at 1. rewrite N.
      match goal with
      | |- match ?o with _ => _ end = _ => destruct o; reflexivity
      end.
Qed.

Lemma stop_is_idempotent_witness :
  FaceScan.stopCamera FaceScan.initial = FaceScan.initial
  /\ VoiceAnalysis.stopRecording
       (VoiceAnalysis.state VoiceAnalysis.initial) VoiceAnalysis.initial
     = VoiceAnalysis.initial.
Proof.
  destruct stop_is_idempotent as (F & _ & V & _).
  split.
  - apply F. reflexivity.
  - apply V. left. reflexivity.
Defined.

(** ** Voice analysis: the wait and the short recording *)

(** The handler on its own.  Every run of [analyzeVoice] first awaits a
    timeout of 2000 ms, having written nothing but [isAnalyzing] and a
    cleared error.  If the recording time the handler reads (that of the
    render whose closure it is, which need not be the time recorded) is
    below 3, then, whatever the world has become meanwhile and whatever the
    randomness source, it ends with the too-short error, the elapsed time
    back at 0, no result set and no draw taken. *)
Theorem short_recording_fails :
  forall (random : nat -> Q) (rho : VoiceAnalysis.State)
         (w : VoiceAnalysis.World),
    let started :=
      VoiceAnalysis.setError None (VoiceAnalysis.setIsAnalyzing true w) in
    VoiceAnalysis.analyzeVoice random rho w
    = Suspended (VoiceAnalysis.SetTimeout 2000) started
                (VoiceAnalysis.analyzeVoice_resume random rho)
    /\ VoiceAnalysis.analysisResult (VoiceAnalysis.state started)
       = VoiceAnalysis.analysisResult (VoiceAnalysis.state w)
    /\ VoiceAnalysis.error (VoiceAnalysis.state started) = None
    /\ ((VoiceAnalysis.recordingTime rho < 3)%Z ->
        forall (random' : nat -> Q) (w' : VoiceAnalysis.World),
          let w'' :=
            VoiceAnalysis.setRecordingTime (fun _ => 0%Z)
              (VoiceAnalysis.setIsAnalyzing false
                 (VoiceAnalysis.setError (Some VoiceAnalysis.tooShort) w')) in
          VoiceAnalysis.analyzeVoice_resume random' rho tt w' = Resolved w''
          /\ VoiceAnalysis.error (VoiceAnalysis.state w'')
             = Some VoiceAnalysis.tooShort
          /\ VoiceAnalysis.recordingTime (VoiceAnalysis.state w'') = 0%Z
          /\ VoiceAnalysis.analysisResult (VoiceAnalysis.state w'')
             = VoiceAnalysis.analysisResult (VoiceAnalysis.state w')
          /\ VoiceAnalysis.isAnalyzing (VoiceAnalysis.state w'') = false
          /\ VoiceAnalysis.draws (VoiceAnalysis.host w'')
             = VoiceAnalysis.draws (VoiceAnalysis.host w')).
Proof.
  intros random rho w. cbn zeta.
  split; [reflexivity|]. split; [reflexivity|]. split; [reflexivity|].
  intros Hshort random' w'.
  unfold VoiceAnalysis.analyzeVoice_resume, Js.lt.
  apply Z.ltb_lt in Hshort. rewrite Hshort.
  repeat split.
Qed.

Lemma short_recording_fails_witness :
  VoiceAnalysis.error
    (VoiceAnalysis.state
       (VoiceAnalysis.setRecordingTime (fun _ => 0%Z)
          (VoiceAnalysis.setIsAnalyzing false
             (VoiceAnalysis.setError (Some VoiceAnalysis.tooShort)
                VoiceAnalysis.initial))))
  = Some VoiceAnalysis.tooShort.
Proof.
  refine (proj1 (proj2
    (proj2 (proj2 (proj2
       (short_recording_fails (fun _ => 0)
          (VoiceAnalysis.state VoiceAnalysis.initial)
          VoiceAnalysis.initial))) _ (fun _ => 1 # 2) VoiceAnalysis.initial))).
  reflexivity.
Defined.

(** ** Face capture: no region *)

(** C3.  A capture whose guards pass (video and canvas mounted, model
    loaded) awaits the detector without touching the camera session or the
    result.  If the detector answers with no region, the handler ends there,
    whatever the world has become: the no-face error is set, [isAnalyzing]
    is cleared, and nothing else changes, so no analysis wait is started, no
    draw is taken, no result is set, and the stream, its tracks and the
    video element are as they were.  The same holds of an upload, with its
    own message. *)
Theorem no_face_fails :
  forall (random : nat -> Q),
    (forall (rho : FaceScan.State) (w : FaceScan.World)
            (video : FaceScan.Video) (canvas : FaceScan.Canvas)
            (m : FaceScan.BlazeFaceModel),
        FaceScan.videoRef w = Some video ->
        FaceScan.canvasRef w = Some canvas ->
        FaceScan.model rho = Some m ->
        exists (input : FaceScan.Canvas) (w1 : FaceScan.World),
          FaceScan.captureAndAnalyze random rho w
          = Suspended (FaceScan.EstimateFaces m input) w1
                      (FaceScan.captureAndAnalyze_detected random)
          /\ FaceScan.streamRef w1 = FaceScan.streamRef w
          /\ FaceScan.streams w1 = FaceScan.streams w
          /\ FaceScan.videoRef w1 = FaceScan.videoRef w
          /\ FaceScan.isCameraActive (FaceScan.state w1)
             = FaceScan.isCameraActive (FaceScan.state w)
          /\ FaceScan.analysisResult (FaceScan.state w1)
             = FaceScan.analysisResult (FaceScan.state w))
    /\ (forall (rho : FaceScan.State) (w : FaceScan.World) (file : nat)
               (canvas : FaceScan.Canvas) (m : FaceScan.BlazeFaceModel),
           FaceScan.canvasRef w = Some canvas ->
           FaceScan.model rho = Some m ->
           FaceScan.handleFileUpload random rho (Some file) w
           = Suspended (FaceScan.ImageLoad file)
               (FaceScan.setError None (FaceScan.setIsAnalyzing true w))
               (FaceScan.handleFileUpload_loaded random m)
           /\ forall (img : FaceScan.Picture) (w' : FaceScan.World)
                     (canvas' : FaceScan.Canvas),
               FaceScan.canvasRef w' = Some canvas' ->
               exists (input : FaceScan.Canvas),
                 FaceScan.handleFileUpload_loaded random m img w'
                 = Suspended (FaceScan.EstimateFaces m input)
                     (FaceScan.setCanvasRef (Some input) w')
                     (FaceScan.handleFileUpload_detected random))
    /\ (forall (w' : FaceScan.World),
           let failed := fun message =>
             FaceScan.setIsAnalyzing false
               (FaceScan.setError (Some message) w') in
           FaceScan.captureAndAnalyze_detected random (Js.Fulfilled []) w'
           = Resolved (failed FaceScan.noFaceCamera)
           /\ FaceScan.handleFileUpload_detected random (Js.Fulfilled []) w'
              = Resolved (failed FaceScan.noFaceUpload)
           /\ forall message,
               let w'' := failed message in
               FaceScan.error (FaceScan.state w'') = Some message
               /\ FaceScan.isAnalyzing (FaceScan.state w'') = false
               /\ FaceScan.analysisResult (FaceScan.state w'')
                  = FaceScan.analysisResult (FaceScan.state w')
               /\ FaceScan.isCameraActive (FaceScan.state w'')
                  = FaceScan.isCameraActive (FaceScan.state w')
               /\ FaceScan.streamRef w'' = FaceScan.streamRef w'
               /\ FaceScan.streams w'' = FaceScan.streams w'
               /\ FaceScan.videoRef w'' = FaceScan.videoRef w'
               /\ FaceScan.canvasRef w'' = FaceScan.canvasRef w'
               /\ FaceScan.draws w'' = FaceScan.draws w').
Proof.
  intros random. split; [|split].
  - intros rho w video canvas m Hv Hc Hm.
    unfold FaceScan.captureAndAnalyze. rewrite Hv, Hc, Hm. cbn.
    eexists. eexists. split; [reflexivity|]. repeat split. exact Hv.
  - intros rho w file canvas m Hc Hm.
    unfold FaceScan.handleFileUpload. rewrite Hc, Hm.
    split; [reflexivity|].
    intros img w' canvas' Hc'.
    unfold FaceScan.handleFileUpload_loaded. rewrite Hc'.
    eexists. reflexivity.
  - intros w'. cbn zeta. repeat split.
Qed.

Lemma no_face_fails_witness :
  exists (input : FaceScan.Canvas) (w1 : FaceScan.World),
    FaceScan.captureAndAnalyze (fun _ => 1 # 2)
      (FaceScan.state FaceScan.cameraLive) FaceScan.cameraLive
    = Suspended (FaceScan.EstimateFaces FaceScan.blazeface input) w1
        (FaceScan.captureAndAnalyze_detected (fun _ => 1 # 2))
    /\ FaceScan.streamRef w1 = Some 0%nat
    /\ FaceScan.streams w1 = [true].
Proof.
  destruct (proj1 (no_face_fails (fun _ => 1 # 2))
              (FaceScan.state FaceScan.cameraLive) FaceScan.cameraLive
              _ _ _ eq_refl eq_refl eq_refl)
    as (input & w1 & E & S1 & S2 & _).
  exists input, w1. split; [exact E|]. split; [exact S1 | exact S2].
Defined.

(** ** Face capture: one or more regions *)

Lemma artifacts_drawBoxes (predictions : list FaceScan.Prediction) :
  forall (w : FaceScan.World) (canvas : FaceScan.Canvas),
    FaceScan.canvasRef w = Some canvas ->
    FaceScan.canvasRef (FaceScan.drawBoxes predictions w)
    = Some {| FaceScan.width := FaceScan.width canvas;
              FaceScan.height := FaceScan.height canvas;
              FaceScan.bitmap :=
                FaceScan.bitmap canvas ++ map FaceScan.box predictions |}
    /\ FaceScan.state (FaceScan.drawBoxes predictions w) = FaceScan.state w
    /\ FaceScan.videoRef (FaceScan.drawBoxes predictions w)
       = FaceScan.videoRef w
    /\ FaceScan.streamRef (FaceScan.drawBoxes predictions w)
       = FaceScan.streamRef w
    /\ FaceScan.streams (FaceScan.drawBoxes predictions w)
       = FaceScan.streams w
    /\ FaceScan.draws (FaceScan.drawBoxes predictions w) = FaceScan.draws w.
Proof.
  induction predictions as [|p ps IH]; intros w canvas Hc.
  - cbn. rewrite app_nil_r. destruct canvas; repeat split; exact Hc.
  - unfold FaceScan.drawBoxes in *. cbn [fold_left].
    assert (Hc' : FaceScan.canvasRef
                    (FaceScan.onCanvas (FaceScan.paint (FaceScan.box p)) w)
                  = Some (FaceScan.paint (FaceScan.box p) canvas)).
    { unfold FaceScan.onCanvas. rewrite Hc. reflexivity. }
    destruct (IH _ _ Hc') as (E & Es & Ev & Er & Et & Ed).
    rewrite E, Es, Ev, Er, Et, Ed.
    unfold FaceScan.onCanvas. rewrite Hc. cbn.
    rewrite <- app_assoc. repeat split.
Qed.

(** A stream whose tracks were stopped is not live. *)
Lemma stopped_not_live (l : list bool) (i : nat) :
  <[i := false]> l !! i <> Some true.
Proof.
  destruct (decide (i < length l)%nat) as [L|L].
  - rewrite list_lookup_insert_eq by exact L. discriminate.
  - rewrite list_insert_ge by lia. rewrite lookup_ge_None_2 by lia.
    discriminate.
Qed.

Lemma analyzeHealth_resume_eq (random : nat -> Q)
    (predictions : list FaceScan.Prediction) (u : unit) (w : FaceScan.World) :
  FaceScan.analyzeHealth_resume random predictions u w
  = Resolved
      (FaceScan.setAnalysisResult
         (Some (fst (FaceScan.produce random (FaceScan.draws w))))
         (FaceScan.setDraws
            (snd (FaceScan.produce random (FaceScan.draws w))) w)).
Proof.
  unfold FaceScan.analyzeHealth_resume, FaceScan.sample.
  destruct (FaceScan.produce random (FaceScan.draws w)). reflexivity.
Qed.

(** C7.  A capture whose guards pass sizes the canvas to the video
    frame, paints that frame on it and hands this snapshot to the detector,
    the camera session untouched.  When the detector answers with one or
    more regions, the handler strokes, for each region in order, the
    rectangle from its top-left corner with its width and height, in
    ['#10b981'] with line width 3, on top of what the canvas holds, and
    awaits the analysis with the detections, the camera still live.  When
    the analysis wait is over it sets the result, then stops the camera:
    the stream's tracks are stopped, the stream is released, the camera is
    no longer active.  In the render that follows, capturing again does
    nothing, and still does nothing after a reset: the camera has to be
    started anew. *)
Theorem capture_releases_camera :
  forall (random : nat -> Q) (rho : FaceScan.State) (w : FaceScan.World)
         (video : FaceScan.Video) (canvas : FaceScan.Canvas)
         (m : FaceScan.BlazeFaceModel) (p : FaceScan.Prediction)
         (ps : list FaceScan.Prediction),
    FaceScan.videoRef w = Some video ->
    FaceScan.canvasRef w = Some canvas ->
    FaceScan.model rho = Some m ->
    let predictions := p :: ps in
    let snapshot :=
      {| FaceScan.width := FaceScan.videoWidth video;
         FaceScan.height := FaceScan.videoHeight video;
         FaceScan.bitmap :=
           [FaceScan.DrawImage (FaceScan.pixels (FaceScan.playing video))] |} in
    let stroke := fun region : FaceScan.Prediction =>
      FaceScan.StrokeRect "#10b981" 3
        (fst (FaceScan.topLeft region)) (snd (FaceScan.topLeft region))
        (fst (FaceScan.bottomRight region) - fst (FaceScan.topLeft region))
        (snd (FaceScan.bottomRight region) - snd (FaceScan.topLeft region)) in
    exists w1 : FaceScan.World,
      FaceScan.captureAndAnalyze random rho w
      = Suspended (FaceScan.EstimateFaces m snapshot) w1
          (FaceScan.captureAndAnalyze_detected random)
      /\ FaceScan.canvasRef w1 = Some snapshot
      /\ FaceScan.streamRef w1 = FaceScan.streamRef w
      /\ FaceScan.streams w1 = FaceScan.streams w
      /\ FaceScan.videoRef w1 = FaceScan.videoRef w
      /\ FaceScan.isCameraActive (FaceScan.state w1)
         = FaceScan.isCameraActive (FaceScan.state w)
      /\ FaceScan.artifacts (FaceScan.drawBoxes predictions w1)
         = FaceScan.DrawImage (FaceScan.pixels (FaceScan.playing video))
           :: map stroke predictions
      /\ forall (w' : FaceScan.World) (canvas' : FaceScan.Canvas),
          FaceScan.canvasRef w' = Some canvas' ->
          let boxed := FaceScan.drawBoxes predictions w' in
          exists k,
            FaceScan.captureAndAnalyze_detected random
              (Js.Fulfilled predictions) w'
            = Suspended (FaceScan.SetTimeout 2000) boxed k
            /\ FaceScan.canvasRef boxed
               = Some {| FaceScan.width := FaceScan.width canvas';
                         FaceScan.height := FaceScan.height canvas';
                         FaceScan.bitmap :=
                           FaceScan.bitmap canvas' ++ map stroke predictions |}
            /\ FaceScan.streamRef boxed = FaceScan.streamRef w'
            /\ FaceScan.streams boxed = FaceScan.streams w'
            /\ FaceScan.videoRef boxed = FaceScan.videoRef w'
            /\ FaceScan.state boxed = FaceScan.state w'
            /\ forall w2 : FaceScan.World,
                exists w3 : FaceScan.World,
                  k tt w2 = Resolved w3
                  /\ FaceScan.analysisResult (FaceScan.state w3)
                     = Some (fst (FaceScan.produce random (FaceScan.draws w2)))
                  /\ FaceScan.isAnalyzing (FaceScan.state w3) = false
                  /\ FaceScan.sessionActive w3 = false
                  /\ FaceScan.streamRef w3 = None
                  /\ FaceScan.isCameraActive (FaceScan.state w3) = false
                  /\ (forall stream : nat,
                         FaceScan.streamRef w2 = Some stream ->
                         FaceScan.streams w3 !! stream <> Some true)
                  /\ FaceScan.captureAndAnalyze random
                       (FaceScan.state (FaceScan.commit w3))
                       (FaceScan.commit w3)
                     = Resolved (FaceScan.commit w3)
                  /\ (let w4 :=
                        FaceScan.commit
                          (FaceScan.resetAnalysis (FaceScan.commit w3)) in
                      FaceScan.captureAndAnalyze random (FaceScan.state w4) w4
                      = Resolved w4).
Proof.
  intros random rho w video canvas m p ps Hv Hc Hm predictions snapshot stroke.
  eexists. split.
  { unfold FaceScan.captureAndAnalyze. rewrite Hv, Hc, Hm.
    cbn [FaceScan.getContext2d]. reflexivity. }
  split; [reflexivity|]. split; [reflexivity|]. split; [reflexivity|].
  split; [reflexivity|]. split; [reflexivity|].
  split.
  { match goal with
    | |- FaceScan.artifacts (FaceScan.drawBoxes _ ?x) = _ =>
        destruct (artifacts_drawBoxes predictions x snapshot eq_refl)
          as (E & _)
    end.
    unfold FaceScan.artifacts. rewrite E. reflexivity. }
  intros w' canvas' Hc' boxed.
  destruct (artifacts_drawBoxes predictions w' canvas' Hc')
    as (E & Es & Ev & Er & Et & Ed).
  eexists. split; [reflexivity|].
  split; [exact E|]. split; [exact Er|]. split; [exact Et|].
  split; [exact Ev|]. split; [exact Es|].
  intros w2. cbv beta. rewrite analyzeHealth_resume_eq. cbn [andThen].
  eexists. split; [reflexivity|].
  generalize (FaceScan.produce random (FaceScan.draws w2)).
  intros [result n'].
  destruct w2 as [[ml mo an ca ar er] [[so pl]|] [c|] [sr|] ss d];
    cbn; repeat split; try reflexivity;
    intros stream [= <-]; apply stopped_not_live.
Qed.

Lemma capture_releases_camera_witness :
  let region :=
    {| FaceScan.topLeft := (10, 20); FaceScan.bottomRight := (110, 140);
       FaceScan.probability := Js.number 0.98 |} in
  exists w1 : FaceScan.World,
    FaceScan.captureAndAnalyze (fun _ => 1 # 2)
      (FaceScan.state FaceScan.cameraLive) FaceScan.cameraLive
    = Suspended
        (FaceScan.EstimateFaces FaceScan.blazeface
           {| FaceScan.width := 640; FaceScan.height := 480;
              FaceScan.bitmap := [FaceScan.DrawImage 1] |})
        w1 (FaceScan.captureAndAnalyze_detected (fun _ => 1 # 2))
    /\ FaceScan.artifacts (FaceScan.drawBoxes [region] w1)
       = [FaceScan.DrawImage 1;
          FaceScan.StrokeRect "#10b981" 3 10 20 (110 - 10) (140 - 20)].
Proof.
  cbn zeta.
  destruct (capture_releases_camera (fun _ => 1 # 2)
              (FaceScan.state FaceScan.cameraLive) FaceScan.cameraLive
              _ _ _
              {| FaceScan.topLeft := (10, 20);
                 FaceScan.bottomRight := (110, 140);
                 FaceScan.probability := Js.number 0.98 |}
              [] eq_refl eq_refl eq_refl)
    as (w1 & E & _ & _ & _ & _ & _ & A & _).
  exists w1. split; [exact E | exact A].
Defined.

(** ** A recording session, event by event *)

Lemma run_cons (random : nat -> Q) (e : VoiceAnalysis.Event)
    (es : list VoiceAnalysis.Event) (s : VoiceAnalysis.System) :
  VoiceAnalysis.run random (e :: es) s
  = VoiceAnalysis.run random es (VoiceAnalysis.step random s e).
Proof. reflexivity. Qed.

Lemma run_app (random : nat -> Q) (es es' : list VoiceAnalysis.Event)
    (s : VoiceAnalysis.System) :
  VoiceAnalysis.run random (es ++ es') s
  = VoiceAnalysis.run random es' (VoiceAnalysis.run random es s).
Proof. unfold VoiceAnalysis.run. apply fold_left_app. Qed.

(** From a fresh mount, a click on Start and a granted permission lead to
    [recordingAt 0]: recording, the interval running, and no frame callback
    requested, because the [updateLevel] that [startRecording] calls reads
    [isRecording] of the render in which Start was clicked. *)
Lemma started_recording (random : nat -> Q) :
  VoiceAnalysis.run random
    [VoiceAnalysis.Click VoiceAnalysis.StartRecording;
     VoiceAnalysis.Permission 0 (Js.Fulfilled tt)]
    VoiceAnalysis.mounted
  = VoiceAnalysis.recordingAt 0.
Proof. vm_compute. reflexivity. Qed.

Lemma second_recordingAt (random : nat -> Q) (t : Z) :
  VoiceAnalysis.step random (VoiceAnalysis.recordingAt t) VoiceAnalysis.Second
  = VoiceAnalysis.recordingAt (t + 1).
Proof. vm_compute. reflexivity. Qed.

Lemma seconds_recordingAt (random : nat -> Q) (n : nat) :
  forall t : Z,
    VoiceAnalysis.run random (repeat VoiceAnalysis.Second n)
      (VoiceAnalysis.recordingAt t)
    = VoiceAnalysis.recordingAt (t + Z.of_nat n).
Proof.
  induction n as [|n IH]; intros t.
  - rewrite Z.add_0_r. reflexivity.
  - cbn [repeat]. rewrite run_cons, second_recordingAt, IH. f_equal. lia.
Qed.

Lemma frame_recordingAt (random : nat -> Q) (data : list byte) (t : Z) :
  VoiceAnalysis.step random (VoiceAnalysis.recordingAt t)
    (VoiceAnalysis.Frame data)
  = VoiceAnalysis.heard data (VoiceAnalysis.recordingAt t).
Proof. vm_compute. reflexivity. Qed.

Lemma frame_heard (random : nat -> Q) (data data' : list byte) (t : Z) :
  VoiceAnalysis.step random
    (VoiceAnalysis.heard data' (VoiceAnalysis.recordingAt t))
    (VoiceAnalysis.Frame data)
  = VoiceAnalysis.heard data (VoiceAnalysis.recordingAt t).
Proof. vm_compute. reflexivity. Qed.

Lemma frames_heard (random : nat -> Q) (t : Z) (frames : list (list byte)) :
  forall s : VoiceAnalysis.System,
    s = VoiceAnalysis.recordingAt t
    \/ (exists data, s = VoiceAnalysis.heard data (VoiceAnalysis.recordingAt t)) ->
    let s' := VoiceAnalysis.run random (map VoiceAnalysis.Frame frames) s in
    s' = VoiceAnalysis.recordingAt t
    \/ (exists data, s' = VoiceAnalysis.heard data (VoiceAnalysis.recordingAt t)).
Proof.
  induction frames as [|data frames IH]; intros s Hs; [exact Hs|].
  cbn [map]. cbn zeta. rewrite run_cons. apply IH. right. exists data.
  destruct Hs as [->|[data' ->]];
    [apply frame_recordingAt | apply frame_heard].
Qed.

(** C5, on the code.  Start a recording on a fresh mount and let any
    number of animation frames pass, whatever the analyser reports: the
    component is recording, yet the level shown is still 0, no frame
    callback is requested and [animationFrameRef] is empty.  The monitor
    loop does not run a single step. *)
Theorem monitor_publishes_nothing :
  forall (random : nat -> Q) (frames : list (list byte)),
    let s :=
      VoiceAnalysis.run random
        ([VoiceAnalysis.Click VoiceAnalysis.StartRecording;
          VoiceAnalysis.Permission 0 (Js.Fulfilled tt)]
           ++ map VoiceAnalysis.Frame frames)
        VoiceAnalysis.mounted in
    let w := VoiceAnalysis.world s in
    VoiceAnalysis.isRecording (VoiceAnalysis.state w) = true
    /\ VoiceAnalysis.audioLevel (VoiceAnalysis.state w) = 0
    /\ VoiceAnalysis.frameRequests (VoiceAnalysis.host w) = []
    /\ VoiceAnalysis.animationFrameRef (VoiceAnalysis.refs w) = None.
Proof.
  intros random frames. cbn zeta. rewrite run_app, started_recording.
  destruct (frames_heard random 0 frames (VoiceAnalysis.recordingAt 0)
              (or_introl eq_refl)) as [->|[data ->]];
    repeat split.
Qed.

Lemma stop_recordingAt (random : nat -> Q) (t : Z) (size : nat) :
  let s :=
    VoiceAnalysis.run random
      [VoiceAnalysis.Click VoiceAnalysis.StopAndAnalyze;
       VoiceAnalysis.RecorderStopped size; VoiceAnalysis.Elapsed 0]
      (VoiceAnalysis.recordingAt t) in
  VoiceAnalysis.error (VoiceAnalysis.state (VoiceAnalysis.world s))
  = Some VoiceAnalysis.tooShort
  /\ VoiceAnalysis.analysisResult (VoiceAnalysis.state (VoiceAnalysis.world s))
     = None
  /\ VoiceAnalysis.recordingTime (VoiceAnalysis.state (VoiceAnalysis.world s))
     = 0%Z
  /\ VoiceAnalysis.pending s = [].
Proof. destruct size; vm_compute; repeat split. Qed.

(** C6, on the code.  Start a recording on a fresh mount, let any number
    of seconds pass, stop, let the recorder fire its events and the analysis
    wait elapse: the elapsed time shown at the stop is the number of
    seconds, yet the analysis ends with the too-short error and no result,
    because [analyzeVoice] reads [recordingTime] of the render in which
    Start was clicked.  Ten seconds are no exception. *)
Theorem recording_always_too_short :
  forall (random : nat -> Q) (seconds size : nat),
    let recorded :=
      VoiceAnalysis.run random
        ([VoiceAnalysis.Click VoiceAnalysis.StartRecording;
          VoiceAnalysis.Permission 0 (Js.Fulfilled tt)]
           ++ repeat VoiceAnalysis.Second seconds)
        VoiceAnalysis.mounted in
    let s :=
      VoiceAnalysis.run random
        [VoiceAnalysis.Click VoiceAnalysis.StopAndAnalyze;
         VoiceAnalysis.RecorderStopped size; VoiceAnalysis.Elapsed 0]
        recorded in
    VoiceAnalysis.recordingTime
      (VoiceAnalysis.state (VoiceAnalysis.world recorded))
    = Z.of_nat seconds
    /\ VoiceAnalysis.error (VoiceAnalysis.state (VoiceAnalysis.world s))
       = Some VoiceAnalysis.tooShort
    /\ VoiceAnalysis.analysisResult
         (VoiceAnalysis.state (VoiceAnalysis.world s)) = None
    /\ VoiceAnalysis.pending s = [].
Proof.
  intros random seconds size. cbn zeta.
  rewrite run_app, started_recording, seconds_recordingAt.
  destruct (stop_recordingAt random (0 + Z.of_nat seconds) size)
    as (E & A & _ & P).
  repeat split; assumption.
Qed.

(** What [analyzeVoice] does after its wait when the recording time it
    reads is 3 or more. *)
Lemma analyzeVoice_resume_long (random : nat -> Q)
    (rho : VoiceAnalysis.State) (u : unit) (w : VoiceAnalysis.World) :
  (3 <= VoiceAnalysis.recordingTime rho)%Z ->
  VoiceAnalysis.analyzeVoice_resume random rho u w
  = Resolved
      (VoiceAnalysis.setRecordingTime (fun _ => 0%Z)
         (VoiceAnalysis.setIsAnalyzing false
            (VoiceAnalysis.setAnalysisResult
               (Some (fst (VoiceAnalysis.produce
                             (VoiceAnalysis.recordingTime rho) random
                             (VoiceAnalysis.draws (VoiceAnalysis.host w)))))
               (VoiceAnalysis.setDraws
                  (5 + VoiceAnalysis.draws (VoiceAnalysis.host w)) w)))).
Proof.
  intros H.
  unfold VoiceAnalysis.analyzeVoice_resume, Js.lt, VoiceAnalysis.sample.
  replace (VoiceAnalysis.recordingTime rho <? 3)%Z with false
    by (symmetry; apply Z.ltb_ge; exact H).
  rewrite voice_produce_eq. reflexivity.
Qed.

Lemma wake_first
    (k : unit -> VoiceAnalysis.World
         -> Async VoiceAnalysis.Request VoiceAnalysis.World)
    (ms : Z) (w : VoiceAnalysis.World) (rest : list VoiceAnalysis.Pending) :
  VoiceAnalysis.wake 0
    {| VoiceAnalysis.world := w;
       VoiceAnalysis.pending :=
         {| VoiceAnalysis.request := VoiceAnalysis.SetTimeout ms;
            VoiceAnalysis.continuation := k |} :: rest |}
  = VoiceAnalysis.launch (k tt w)
      {| VoiceAnalysis.world := w; VoiceAnalysis.pending := rest |}.
Proof. reflexivity. Qed.

(** After [secondStop] and the second recorder's events, the one handler
    waiting is the [analyzeVoice] of [staleRender]. *)
Lemma second_analysis_pending (random : nat -> Q) :
  exists w,
    VoiceAnalysis.run random
      (VoiceAnalysis.secondStop ++ [VoiceAnalysis.RecorderStopped 1])
      VoiceAnalysis.mounted
    = {| VoiceAnalysis.world := w;
         VoiceAnalysis.pending :=
           [{| VoiceAnalysis.request := VoiceAnalysis.SetTimeout 2000;
               VoiceAnalysis.continuation :=
                 VoiceAnalysis.analyzeVoice_resume random
                   VoiceAnalysis.staleRender |}] |}
    /\ VoiceAnalysis.analysisResult (VoiceAnalysis.state w) = None
    /\ VoiceAnalysis.error (VoiceAnalysis.state w) = None
    /\ VoiceAnalysis.draws (VoiceAnalysis.host w) = 0%nat.
Proof.
  eexists. split; [vm_compute; reflexivity|]. repeat split.
Qed.

(** C2, on the code.  Record five seconds, stop, click Start again before
    the first recorder's stop event is delivered, record one second and
    stop.  The elapsed time shown at the second stop is 1, below the
    minimum of 3; yet when the second recorder's events have fired and the
    analysis wait is over there is no too-short error but a result, whose
    duration is the 5 seconds of the first recording: the [analyzeVoice]
    that ran is the one of the render in which Start was clicked the second
    time. *)
Theorem second_recording_reads_first_duration :
  forall random : nat -> Q,
    let stopped :=
      VoiceAnalysis.run random VoiceAnalysis.secondStop
        VoiceAnalysis.mounted in
    let s :=
      VoiceAnalysis.run random
        [VoiceAnalysis.RecorderStopped 1; VoiceAnalysis.Elapsed 0] stopped in
    let shown := VoiceAnalysis.state (VoiceAnalysis.world s) in
    let result := fst (VoiceAnalysis.produce 5 random 0%nat) in
    VoiceAnalysis.recordingTime
      (VoiceAnalysis.state (VoiceAnalysis.world stopped)) = 1%Z
    /\ VoiceAnalysis.error shown = None
    /\ VoiceAnalysis.analysisResult shown = Some result
    /\ VoiceAnalysis.duration (VoiceAnalysis.metrics result) = 5%Z.
Proof.
  intros random. cbn zeta.
  split; [vm_compute; reflexivity|].
  rewrite <- run_app.
  replace (VoiceAnalysis.secondStop
             ++ [VoiceAnalysis.RecorderStopped 1; VoiceAnalysis.Elapsed 0])
    with ((VoiceAnalysis.secondStop ++ [VoiceAnalysis.RecorderStopped 1])
            ++ [VoiceAnalysis.Elapsed 0])
    by (rewrite <- app_assoc; reflexivity).
  rewrite run_app.
  destruct (second_analysis_pending random) as (w & -> & R & E & D).
  rewrite run_cons. unfold VoiceAnalysis.run.
  cbn [fold_left VoiceAnalysis.step].
  rewrite wake_first.
  rewrite analyzeVoice_resume_long by (vm_compute; congruence).
  rewrite D. cbn [VoiceAnalysis.launch].
  split; [exact E|].
  split; [reflexivity|].
  rewrite voice_produce_eq. reflexivity.
Qed.

(** * Further properties of the code *)

(** ** Voice: the result of a long enough recording *)

(** X1.  When the recording time [analyzeVoice] reads is 3 or more and the
    draws are in [[0,1)], the run ends by setting a result whose pitch is in
    [[100,200]], volume in [[50,90]] and clarity in [[70,95]], whose duration
    is the recording time read, with five draws taken, [isAnalyzing] cleared
    and the elapsed time back at 0. *)
Theorem voice_metrics_in_range :
  forall (random : nat -> Q) (rho : VoiceAnalysis.State)
         (w : VoiceAnalysis.World),
    unitDraws random ->
    (3 <= VoiceAnalysis.recordingTime rho)%Z ->
    let n := VoiceAnalysis.draws (VoiceAnalysis.host w) in
    let result :=
      fst (VoiceAnalysis.produce (VoiceAnalysis.recordingTime rho) random n) in
    let m := VoiceAnalysis.metrics result in
    VoiceAnalysis.analyzeVoice_resume random rho tt w
    = Resolved
        (VoiceAnalysis.setRecordingTime (fun _ => 0%Z)
           (VoiceAnalysis.setIsAnalyzing false
              (VoiceAnalysis.setAnalysisResult (Some result)
                 (VoiceAnalysis.setDraws (5 + n) w))))
    /\ (100 <= VoiceAnalysis.pitch m <= 200)%Z
    /\ (50 <= VoiceAnalysis.volume m <= 90)%Z
    /\ (70 <= VoiceAnalysis.clarity m <= 95)%Z
    /\ VoiceAnalysis.duration m = VoiceAnalysis.recordingTime rho.
Proof.
  intros random rho w Hu Hlong. cbn zeta.
  split.
  - unfold VoiceAnalysis.analyzeVoice_resume, Js.lt, VoiceAnalysis.sample.
    replace (VoiceAnalysis.recordingTime rho <? 3)%Z with false
      by (symmetry; apply Z.ltb_ge; exact Hlong).
    rewrite voice_produce_eq. reflexivity.
  - rewrite voice_produce_eq.
    cbn [fst VoiceAnalysis.metrics VoiceAnalysis.pitch VoiceAnalysis.volume
         VoiceAnalysis.clarity VoiceAnalysis.duration].
    destruct (Hu (VoiceAnalysis.draws (VoiceAnalysis.host w))) as [P0 P1].
    destruct (Hu (1 + VoiceAnalysis.draws (VoiceAnalysis.host w))%nat)
      as [V0 V1].
    destruct (Hu (2 + VoiceAnalysis.draws (VoiceAnalysis.host w))%nat)
      as [C0 C1].
    split; [exact (round_scaled _ 100 100 P0 P1 ltac:(lia))|].
    split; [exact (round_scaled _ 50 40 V0 V1 ltac:(lia))|].
    split; [exact (round_scaled _ 70 25 C0 C1 ltac:(lia))|].
    reflexivity.
Qed.

Lemma voice_metrics_in_range_witness :
  let m :=
    VoiceAnalysis.metrics
      (fst (VoiceAnalysis.produce 10 (fun _ => 1 # 2) 0%nat)) in
  (100 <= VoiceAnalysis.pitch m <= 200)%Z
  /\ VoiceAnalysis.duration m = 10%Z.
Proof.
  cbn zeta.
  assert (Hu : unitDraws (fun _ : nat => 1 # 2))
    by (intros i; split; vm_compute; congruence).
  destruct (voice_metrics_in_range (fun _ => 1 # 2)
              (VoiceAnalysis.state
                 (VoiceAnalysis.world (VoiceAnalysis.recordingAt 10)))
              VoiceAnalysis.initial Hu ltac:(vm_compute; congruence))
    as (_ & P & _ & _ & D).
  split; [exact P | exact D].
Defined.

(** ** Voice: one step of the level monitor *)

Lemma byteValue_bounds (b : byte) :
  0 <= VoiceAnalysis.byteValue b /\ VoiceAnalysis.byteValue b <= 255.
Proof.
  unfold VoiceAnalysis.byteValue.
  pose proof (Byte.to_N_bounded b) as H.
  change 0 with (inject_Z 0). change 255 with (inject_Z 255).
  rewrite <- !Zle_Qle. lia.
Qed.

Lemma fold_sum_bounds (l : list byte) :
  forall (acc : Q) (k : Z),
    0 <= acc -> acc <= inject_Z (255 * k) ->
    let s := fold_left (fun a b => a + VoiceAnalysis.byteValue b) l acc in
    0 <= s /\ s <= inject_Z (255 * (k + Z.of_nat (length l))).
Proof.
  induction l as [|b l IH]; intros acc k H0 Hk; cbn zeta.
  - cbn. rewrite Z.add_0_r. split; assumption.
  - cbn [fold_left length]. destruct (byteValue_bounds b) as [B0 B1].
    replace (k + Z.of_nat (S (length l)))%Z
      with ((k + 1) + Z.of_nat (length l))%Z by lia.
    apply IH.
    + rewrite <- (Qplus_0_r 0). apply Qplus_le_compat; assumption.
    + replace (255 * (k + 1))%Z with (255 * k + 255)%Z by lia.
      rewrite inject_Z_plus. apply Qplus_le_compat; assumption.
Qed.

Lemma reduceSum_bounds (l : list byte) :
  0 <= VoiceAnalysis.reduceSum l
  /\ VoiceAnalysis.reduceSum l <= inject_Z (255 * Z.of_nat (length l)).
Proof.
  destruct l as [|b l]; [split; [apply Qle_refl|discriminate]|].
  unfold VoiceAnalysis.reduceSum. destruct (byteValue_bounds b) as [B0 B1].
  replace (Z.of_nat (length (b :: l))) with (1 + Z.of_nat (length l))%Z
    by (cbn [length]; lia).
  apply (fold_sum_bounds l _ 1); assumption.
Qed.

Lemma level_bounds (s : Q) :
  0 <= s -> s <= inject_Z (255 * 128) ->
  0 <= s / inject_Z 128 / 255 * 100 /\ s / inject_Z 128 / 255 * 100 <= 100.
Proof.
  intros H0 H1.
  assert (E : s / inject_Z 128 / 255 * 100 == s * (100 # 32640)).
  { unfold Qdiv. change (/ inject_Z 128) with (1 # 128).
    change (/ 255) with (1 # 255). ring. }
  rewrite E. split.
  - apply Qmult_le_0_compat; [exact H0 | discriminate].
  - apply Qle_trans with (inject_Z (255 * 128) * (100 # 32640)).
    + apply Qmult_le_compat_r; [exact H1 | discriminate].
    + vm_compute. discriminate.
Qed.

Lemma Math_min_le (x y : Q) : y <= x -> Js.Math_min x y == y.
Proof.
  intros H. unfold Js.Math_min. destruct (Qle_bool x y) eqn:E; [|reflexivity].
  apply Qle_bool_iff in E. apply Qle_antisym; assumption.
Qed.

(** X2.  Run from a render that is recording, with an analyser attached,
    [monitorAudioLevel] reads the 128 frequency bins, publishes their mean
    scaled from [[0,255]] to [[0,100]] (the [Math.min] never has to clip),
    requests exactly one more frame callback and keeps its handle in
    [animationFrameRef]. *)
Theorem level_in_range :
  forall (rho : VoiceAnalysis.State) (w : VoiceAnalysis.World) (a : nat),
    VoiceAnalysis.analyserRef (VoiceAnalysis.refs w) = Some a ->
    VoiceAnalysis.isRecording rho = true ->
    let w' := VoiceAnalysis.monitorAudioLevel rho w in
    let data := VoiceAnalysis.getByteFrequencyData w in
    let level := VoiceAnalysis.audioLevel (VoiceAnalysis.state w') in
    let handle := S (VoiceAnalysis.frameHandles (VoiceAnalysis.host w)) in
    length data = 128%nat
    /\ level == VoiceAnalysis.reduceSum data / 128 / 255 * 100
    /\ 0 <= level /\ level <= 100
    /\ VoiceAnalysis.frameRequests (VoiceAnalysis.host w')
       = VoiceAnalysis.frameRequests (VoiceAnalysis.host w) ++ [(handle, rho)]
    /\ VoiceAnalysis.animationFrameRef (VoiceAnalysis.refs w') = Some handle.
Proof.
  intros rho w a Ha Hr. cbn zeta.
  assert (L : length (VoiceAnalysis.getByteFrequencyData w) = 128%nat)
    by apply length_resize.
  unfold VoiceAnalysis.monitorAudioLevel, VoiceAnalysis.updateLevel.
  rewrite Ha, Hr. cbn [negb].
  unfold VoiceAnalysis.requestAnimationFrame.
  cbn [VoiceAnalysis.setAnimationFrameRef VoiceAnalysis.setFrameRequests
       VoiceAnalysis.setAudioLevel VoiceAnalysis.withState
       VoiceAnalysis.withRefs VoiceAnalysis.withHost VoiceAnalysis.state
       VoiceAnalysis.refs VoiceAnalysis.host VoiceAnalysis.audioLevel
       VoiceAnalysis.frameRequests VoiceAnalysis.frameHandles
       VoiceAnalysis.animationFrameRef].
  rewrite L.
  destruct (reduceSum_bounds (VoiceAnalysis.getByteFrequencyData w))
    as [S0 S1].
  rewrite L in S1.
  destruct (level_bounds _ S0 S1) as [B0 B1].
  change (inject_Z (Z.of_nat 128)) with (inject_Z 128).
  pose proof (Math_min_le 100 _ B1) as M.
  split; [reflexivity|]. split; [exact M|].
  split; [rewrite M; exact B0|]. split; [rewrite M; exact B1|].
  split; reflexivity.
Qed.

Lemma level_in_range_witness :
  let w := VoiceAnalysis.setSpectrum (repeat xff 128)
             (VoiceAnalysis.world (VoiceAnalysis.recordingAt 0)) in
  let w' := VoiceAnalysis.monitorAudioLevel (VoiceAnalysis.state w) w in
  VoiceAnalysis.audioLevel (VoiceAnalysis.state w') == 100
  /\ VoiceAnalysis.animationFrameRef (VoiceAnalysis.refs w') = Some 1%nat.
Proof.
  cbn zeta.
  destruct (level_in_range
              (VoiceAnalysis.state (VoiceAnalysis.world (VoiceAnalysis.recordingAt 0)))
              (VoiceAnalysis.setSpectrum (repeat xff 128)
                 (VoiceAnalysis.world (VoiceAnalysis.recordingAt 0)))
              0%nat eq_refl eq_refl) as (_ & E & _ & _ & _ & A).
  split; [|exact A].
  eapply Qeq_trans; [exact E|]. vm_compute. reflexivity.
Defined.

(** ** Voice: the level monitor in every run of the component *)

Section Monitor.

Import VoiceAnalysis.

Variable random : nat -> Q.

Lemma stale_updateLevel (rho : State) (w : World) :
  isRecording rho = false -> updateLevel rho w = w.
Proof.
  intros H. unfold updateLevel. rewrite H.
  destruct (analyserRef (refs w)); reflexivity.
Qed.

Lemma stale_monitor (rho : State) (w : World) :
  isRecording rho = false -> monitorAudioLevel rho w = w.
Proof.
  intros H. unfold monitorAudioLevel. rewrite stale_updateLevel by exact H.
  destruct (analyserRef (refs w)); reflexivity.
Qed.

Lemma meter_recorderStart (r : nat) (w : World) :
  meter (recorderStart r w) = meter w.
Proof.
  unfold recorderStart. destruct (recorders (host w) !! r); reflexivity.
Qed.

Lemma meter_recorderStop (r : nat) (w : World) :
  meter (recorderStop r w) = meter w.
Proof.
  unfold recorderStop.
  destruct (recorders (host w) !! r) as [m|]; [|reflexivity].
  destruct (recording m); reflexivity.
Qed.

Lemma silent_cancel (id : nat) (w : World) :
  silent w -> silent (cancelAnimationFrame id w).
Proof.
  unfold silent, meter, cancelAnimationFrame. destruct w as [[] [] []]; cbn.
  intros [= -> ->]. reflexivity.
Qed.

Lemma meter_granted (rho : State) (res : Js.Settled unit) (w : World) :
  isRecording rho = false ->
  exists w',
    startRecording_granted rho res w = Resolved w' /\ meter w' = meter w.
Proof.
  intros H. destruct res as [u|]; cbn [startRecording_granted].
  - unfold newStream, newAudioContext, newMediaRecorder, setInterval.
    rewrite stale_monitor by exact H. eexists. split; [reflexivity|].
    match goal with
    | |- meter (setTimerRef ?t (setIntervals ?i (setIsRecording ?b
                  (recorderStart ?r ?x)))) = _ =>
        change (meter (recorderStart r x) = meter w)
    end.
    rewrite meter_recorderStart. reflexivity.
  - eexists. split; reflexivity.
Qed.

Lemma silent_stopRecording (rho : State) (w : World) :
  silent w -> silent (stopRecording rho w).
Proof.
  intros H. unfold stopRecording.
  destruct (mediaRecorderRef (refs w)) as [r|]; [|exact H].
  destruct (isRecording rho); [|exact H].
  assert (S1 : silent (setIsRecording false (recorderStop r w))).
  { unfold silent. change (meter (recorderStop r w) = (0, [])).
    rewrite meter_recorderStop. exact H. }
  revert S1. generalize (setIsRecording false (recorderStop r w)).
  intros w1 S1.
  assert (S2 : silent (whenHandle (timerRef (refs w1))
                         (fun id w => setTimerRef None (clearInterval id w))
                         w1)).
  { unfold whenHandle. destruct (timerRef (refs w1)) as [[|i]|]; exact S1. }
  revert S2.
  generalize (whenHandle (timerRef (refs w1))
                (fun id w => setTimerRef None (clearInterval id w)) w1).
  intros w2 S2.
  assert (S3 : silent (whenHandle (animationFrameRef (refs w2))
                         (fun id w =>
                            setAnimationFrameRef None
                              (cancelAnimationFrame id w)) w2)).
  { unfold whenHandle.
    destruct (animationFrameRef (refs w2)) as [[|i]|]; try exact S2.
    exact (silent_cancel (S i) w2 S2). }
  revert S3.
  generalize (whenHandle (animationFrameRef (refs w2))
                (fun id w =>
                   setAnimationFrameRef None (cancelAnimationFrame id w)) w2).
  intros w3 S3.
  destruct (audioContextRef (refs w3)); exact S3.
Qed.

Lemma meter_resume (rho : State) (u : unit) (w : World) :
  exists w',
    analyzeVoice_resume random rho u w = Resolved w' /\ meter w' = meter w.
Proof.
  unfold analyzeVoice_resume, sample.
  destruct (Js.lt (recordingTime rho) 3).
  - eexists. split; reflexivity.
  - destruct (produce (recordingTime rho) random (draws (host w))).
    eexists. split; reflexivity.
Qed.

Lemma meter_second (w : World) : meter (second w) = meter w.
Proof.
  unfold second. generalize (intervals (host w)) as l. intros l. revert w.
  induction l as [|b l IH]; intros w; [reflexivity|].
  cbn [fold_left]. rewrite IH. destruct b; reflexivity.
Qed.

Lemma silent_frame (data : list byte) (w : World) :
  silent w -> silent (frame data w).
Proof.
  intros H. unfold frame.
  assert (E : frameRequests (host (setSpectrum data w)) = []).
  { unfold silent, meter in H. injection H as _ F. exact F. }
  rewrite E. cbn [fold_left].
  unfold silent, meter in *. injection H as A _. cbn. rewrite A. reflexivity.
Qed.

Lemma quiet_launch (a : Async Request World) (s : System) :
  Forall (idlePending random) (pending s) ->
  (match a with
   | Resolved w => silent w
   | @Suspended _ _ R req w k =>
       silent w
       /\ idlePending random
            {| answerType := R; request := req; continuation := k |}
   end) ->
  quiet random (launch a s).
Proof.
  intros Hp Ha. destruct a as [w|R req w k]; cbn [launch].
  - split; [exact Ha | exact Hp].
  - destruct Ha as [Hw Hk]. split; [exact Hw|].
    cbn [pending]. apply Forall_app. split; [exact Hp|].
    constructor; [exact Hk | constructor].
Qed.

(** The Start button is only offered by a render that is not recording. *)
Lemma clickable_start (rho : State) :
  clickable rho StartRecording = true -> isRecording rho = false.
Proof.
  unfold clickable. destruct (analysisResult rho); [discriminate|].
  destruct (isRecording rho); [discriminate | reflexivity].
Qed.

Lemma quiet_step (s : System) (e : Event) :
  quiet random s -> quiet random (step random s e).
Proof.
  intros [Hw Hp]. destruct e as [b|i res|i| |data|size]; cbn [step].
  - unfold click. destruct (clickable (state (world s)) b) eqn:C;
      [|split; assumption].
    destruct b.
    + apply quiet_launch; [exact Hp|]. cbn [startRecording].
      split; [exact Hw|]. constructor. apply clickable_start. exact C.
    + split; [|exact Hp]. cbn [setWorld world].
      apply silent_stopRecording. exact Hw.
    + split; [|exact Hp]. cbn [setWorld world].
      unfold silent, meter in *. injection Hw as _ F. cbn. rewrite F.
      reflexivity.
  - unfold settle. destruct (pending s !! i) as [p|] eqn:L;
      [|split; assumption].
    assert (Hd : Forall (idlePending random) (pending (withoutPending i s))).
    { cbn [withoutPending pending]. apply Forall_delete. exact Hp. }
    pose proof (proj1 (Forall_lookup _ _) Hp i p L) as Hi.
    destruct Hi as [rho Hr|rho ms]; [|split; assumption].
    destruct (meter_granted rho res (world s) Hr) as (w' & E & M).
    rewrite E. apply quiet_launch; [exact Hd|].
    unfold silent. rewrite M. exact Hw.
  - unfold wake. destruct (pending s !! i) as [p|] eqn:L;
      [|split; assumption].
    assert (Hd : Forall (idlePending random) (pending (withoutPending i s))).
    { cbn [withoutPending pending]. apply Forall_delete. exact Hp. }
    pose proof (proj1 (Forall_lookup _ _) Hp i p L) as Hi.
    destruct Hi as [rho Hr|rho ms]; [split; assumption|].
    destruct (meter_resume rho tt (world s)) as (w' & E & M).
    rewrite E. apply quiet_launch; [exact Hd|].
    unfold silent. rewrite M. exact Hw.
  - split; [|exact Hp]. cbn [setWorld world]. unfold silent.
    rewrite meter_second. exact Hw.
  - split; [|exact Hp]. cbn [setWorld world]. apply silent_frame. exact Hw.
  - unfold recorderStopped.
    destruct (stopEvents (host (world s))) as [|r rest]; [split; assumption|].
    cbv zeta.
    match goal with
    | |- context [recorders (host ?x) !! r] =>
        destruct (recorders (host x) !! r) as [m|]
    end.
    + apply quiet_launch; [exact Hp|]. cbn [onstopHandler analyzeVoice].
      split; [|constructor].
      unfold ondataavailable. destruct (0 <? size)%nat; exact Hw.
    + split; [exact Hw | exact Hp].
Qed.

(** X3.  Whatever the user and the host do after the component is mounted
    (clicks on the buttons shown, permissions granted or denied, seconds,
    frames with any spectrum, recorder events, timeouts, in any order and
    number), the audio level published is 0 and no frame callback is ever
    requested: every [updateLevel] is created by a render that was not
    recording. *)
Theorem level_never_moves :
  forall events : list Event,
    let w := world (run random events mounted) in
    audioLevel (state w) = 0 /\ frameRequests (host w) = [].
Proof.
  intros events. cbn zeta.
  assert (Q : quiet random (run random events mounted)).
  { assert (Q0 : quiet random mounted)
      by (split; [reflexivity | constructor]).
    unfold run. revert Q0. generalize mounted.
    induction events as [|e events IH]; intros s Hs; [exact Hs|].
    cbn [fold_left]. apply IH. apply quiet_step. exact Hs. }
  destruct Q as [S _]. unfold silent, meter in S. injection S as A F.
  split; assumption.
Qed.

End Monitor.

(** ** Voice: what stopping and unmounting release *)

Lemma cancelled_not_pending (id : nat) (l : list (nat * VoiceAnalysis.State))
    (rho : VoiceAnalysis.State) :
  (id, rho) ∉ filter (fun request => fst request <> id) l.
Proof.
  intros H. apply list_elem_of_filter in H. destruct H as [H _].
  apply H. reflexivity.
Qed.

(** X4.  [stopRecording], run from a render that is recording with a
    recorder at hand, clears [isRecording]; clears the interval it holds and
    forgets its handle; cancels the frame request it holds and forgets its
    handle; closes the audio context it holds and forgets it; and, if the
    recorder was recording, makes it inactive and queues its stop event.
    It does not stop the microphone tracks itself (the [onstop] handler
    does) and it keeps the recorder and analyser refs, the elapsed time, the
    result and the error. *)
Theorem stopRecording_releases :
  forall (rho : VoiceAnalysis.State) (w : VoiceAnalysis.World) (r : nat),
    VoiceAnalysis.mediaRecorderRef (VoiceAnalysis.refs w) = Some r ->
    VoiceAnalysis.isRecording rho = true ->
    let w' := VoiceAnalysis.stopRecording rho w in
    let refs := VoiceAnalysis.refs in
    let host := VoiceAnalysis.host in
    let state := VoiceAnalysis.state in
    VoiceAnalysis.isRecording (state w') = false
    /\ (forall i, VoiceAnalysis.timerRef (refs w) = Some (S i) ->
          VoiceAnalysis.timerRef (refs w') = None
          /\ VoiceAnalysis.intervals (host w') !! i <> Some true)
    /\ (forall i, VoiceAnalysis.animationFrameRef (refs w) = Some (S i) ->
          VoiceAnalysis.animationFrameRef (refs w') = None
          /\ forall rho',
              (S i, rho') ∉ VoiceAnalysis.frameRequests (host w'))
    /\ (forall c, VoiceAnalysis.audioContextRef (refs w) = Some c ->
          VoiceAnalysis.audioContextRef (refs w') = None
          /\ VoiceAnalysis.contexts (host w') !! c <> Some true)
    /\ (forall m,
          VoiceAnalysis.recorders (host w) !! r = Some m ->
          VoiceAnalysis.recording m = true ->
          VoiceAnalysis.stopEvents (host w')
          = VoiceAnalysis.stopEvents (host w) ++ [r]
          /\ VoiceAnalysis.recorders (host w') !! r
             = Some {| VoiceAnalysis.stream := VoiceAnalysis.stream m;
                       VoiceAnalysis.recording := false;
                       VoiceAnalysis.onstop := VoiceAnalysis.onstop m |})
    /\ VoiceAnalysis.streams (host w') = VoiceAnalysis.streams (host w)
    /\ VoiceAnalysis.mediaRecorderRef (refs w') = Some r
    /\ VoiceAnalysis.analyserRef (refs w') = VoiceAnalysis.analyserRef (refs w)
    /\ VoiceAnalysis.recordingTime (state w')
       = VoiceAnalysis.recordingTime (state w)
    /\ VoiceAnalysis.analysisResult (state w')
       = VoiceAnalysis.analysisResult (state w)
    /\ VoiceAnalysis.error (state w') = VoiceAnalysis.error (state w).
Proof.
  intros rho w r Hr Hrec. cbn zeta.
  unfold VoiceAnalysis.stopRecording. rewrite Hr, Hrec.
  unfold VoiceAnalysis.recorderStop, VoiceAnalysis.whenHandle.
  destruct w as [[ir ia ar er rt al] [mr ac an ch af tr]
                 [ss rs cs iv fr fh se sp dr]].
  cbn in Hr. subst mr. cbn.
  destruct (rs !! r) as [m|] eqn:Lr;
    [destruct (VoiceAnalysis.recording m) eqn:Rm|];
    cbn; destruct tr as [[|t]|]; cbn; destruct af as [[|f]|]; cbn;
    destruct ac as [c|]; cbn;
    repeat split; try discriminate; try reflexivity;
    repeat match goal with
           | H : Some _ = Some _ |- _ => injection H as <-
           | |- _ ∉ _ => apply cancelled_not_pending
           | |- <[_:=false]> _ !! _ <> Some true => apply stopped_not_live
           | |- forall _, _ => intro
           end;
    try congruence;
    apply list_lookup_insert_eq; apply lookup_lt_is_Some; eauto.
Qed.

Lemma stopRecording_releases_witness :
  let w := VoiceAnalysis.world (VoiceAnalysis.recordingAt 5) in
  let w' := VoiceAnalysis.stopRecording (VoiceAnalysis.state w) w in
  VoiceAnalysis.isRecording (VoiceAnalysis.state w') = false
  /\ VoiceAnalysis.timerRef (VoiceAnalysis.refs w') = None
  /\ VoiceAnalysis.stopEvents (VoiceAnalysis.host w') = [0%nat]
  /\ VoiceAnalysis.streams (VoiceAnalysis.host w') = [true].
Proof.
  cbn zeta.
  destruct (stopRecording_releases
              (VoiceAnalysis.state (VoiceAnalysis.world (VoiceAnalysis.recordingAt 5)))
              (VoiceAnalysis.world (VoiceAnalysis.recordingAt 5))
              0%nat eq_refl eq_refl)
    as (I & T & _ & _ & E & S & _).
  split; [exact I|]. split; [exact (proj1 (T 0%nat eq_refl))|].
  split; [exact (proj1 (E _ eq_refl eq_refl))|]. exact S.
Defined.



(** ** Voice: the elapsed-time display *)

Lemma two_digits (r : Z) :
  (0 <= r < 60)%Z ->
  Js.padStart2 (Js.toString r)
  = String (VoiceAnalysis.digit (r / 10))
      (String (VoiceAnalysis.digit (r mod 10)) "").
Proof.
  intros H.
  assert (E : r = Z.of_nat (Z.to_nat r)) by lia.
  assert (L : (Z.to_nat r < 60)%nat) by lia.
  rewrite E. generalize dependent (Z.to_nat r). clear. intros n _ L.
  do 60 (destruct n as [|n]; [vm_compute; reflexivity|]). lia.
Qed.

(** X6.  For an elapsed time of zero or more whole seconds below 2^53
    (where the integers, their floor quotient by 60 and their remainder
    are exact as doubles), [formatTime] is the decimal number of whole
    minutes, a colon, and exactly two digits, the tens (0 to 5) and the
    units of the remaining seconds; minutes and the two digits give back
    the elapsed time. *)
Theorem formatTime_two_digits :
  forall seconds : Z,
    (0 <= seconds < 2 ^ 53)%Z ->
    let secs := (seconds mod 60)%Z in
    VoiceAnalysis.formatTime seconds
    = (Js.toString (seconds / 60) ++ ":"
       ++ String (VoiceAnalysis.digit (secs / 10))
            (String (VoiceAnalysis.digit (secs mod 10)) ""))%string
    /\ (0 <= secs / 10 <= 5)%Z /\ (0 <= secs mod 10 <= 9)%Z
    /\ (seconds = 60 * (seconds / 60) + (10 * (secs / 10) + secs mod 10))%Z.
Proof.
  intros seconds [H _]. cbn zeta. unfold VoiceAnalysis.formatTime.
  rewrite Z.rem_mod_nonneg by lia.
  pose proof (Z.mod_pos_bound seconds 60 ltac:(lia)) as B.
  rewrite two_digits by exact B.
  split; [reflexivity|].
  pose proof (Z.div_mod seconds 60 ltac:(lia)).
  pose proof (Z.div_mod (seconds mod 60) 10 ltac:(lia)).
  pose proof (Z.mod_pos_bound (seconds mod 60) 10 ltac:(lia)).
  assert (0 <= seconds mod 60 / 10)%Z by (apply Z.div_pos; lia).
  assert (seconds mod 60 / 10 < 6)%Z by (apply Z.div_lt_upper_bound; lia).
  repeat split; lia.
Qed.

Lemma formatTime_two_digits_witness :
  VoiceAnalysis.formatTime 75 = "1:15"%string.
Proof.
  rewrite (proj1 (formatTime_two_digits 75 ltac:(lia))). reflexivity.
Defined.

(** ** Face: starting and stopping the camera *)

(** X7.  While the camera is not active the JSX mounts no video element,
    so after a render [videoRef.current] is empty; [startCamera] then clears
    the error and asks for the camera, and when the answer arrives and the
    ref is still empty, a granted stream is left live without being kept
    anywhere: [streamRef] and [isCameraActive] are unchanged, so the next
    render mounts no video element either.  A refusal sets the
    camera-access message. *)
Theorem camera_never_starts :
  forall (w : FaceScan.World),
    FaceScan.isCameraActive (FaceScan.state w) = false ->
    let w0 := FaceScan.commit w in
    FaceScan.videoRef w0 = None
    /\ FaceScan.startCamera w0
       = Suspended FaceScan.GetUserMedia (FaceScan.setError None w0)
           FaceScan.startCamera_granted
    /\ forall (w1 : FaceScan.World),
        FaceScan.videoRef w1 = None ->
        FaceScan.startCamera_granted (Js.Fulfilled tt) w1
        = Resolved (FaceScan.setStreams (FaceScan.streams w1 ++ [true]) w1)
        /\ FaceScan.startCamera_granted Js.Rejected w1
           = Resolved (FaceScan.setError (Some FaceScan.cameraDenied) w1)
        /\ forall res,
            exists w2,
              FaceScan.startCamera_granted res w1 = Resolved w2
              /\ FaceScan.isCameraActive (FaceScan.state w2)
                 = FaceScan.isCameraActive (FaceScan.state w1)
              /\ FaceScan.streamRef w2 = FaceScan.streamRef w1
              /\ FaceScan.videoRef w2 = None
              /\ (FaceScan.isCameraActive (FaceScan.state w1) = false ->
                  FaceScan.videoRef (FaceScan.commit w2) = None).
Proof.
  intros w Hc. cbn zeta.
  assert (V : FaceScan.videoRef (FaceScan.commit w) = None).
  { unfold FaceScan.commit, FaceScan.videoMounted. rewrite Hc.
    destruct (FaceScan.analysisResult (FaceScan.state w)); reflexivity. }
  split; [exact V|]. split; [reflexivity|].
  intros w1 V1.
  assert (G : FaceScan.startCamera_granted (Js.Fulfilled tt) w1
              = Resolved
                  (FaceScan.setStreams (FaceScan.streams w1 ++ [true]) w1)).
  { unfold FaceScan.startCamera_granted, FaceScan.newStream.
    cbn [FaceScan.videoRef FaceScan.setStreams]. rewrite V1. reflexivity. }
  split; [exact G|]. split; [reflexivity|].
  intros [[]|]; [rewrite G|cbn [FaceScan.startCamera_granted]];
    eexists; (split; [reflexivity|]); repeat split; try exact V1;
    intros Hc1; unfold FaceScan.commit, FaceScan.videoMounted; cbn;
    rewrite Hc1; destruct (FaceScan.analysisResult (FaceScan.state w1));
    reflexivity.
Qed.

Lemma camera_never_starts_witness :
  FaceScan.startCamera_granted (Js.Fulfilled tt)
    (FaceScan.setError None (FaceScan.commit FaceScan.initial))
  = Resolved
      (FaceScan.setStreams [true]
         (FaceScan.setError None (FaceScan.commit FaceScan.initial))).
Proof.
  exact (proj1 (proj2 (proj2 (camera_never_starts FaceScan.initial eq_refl))
                  (FaceScan.setError None (FaceScan.commit FaceScan.initial))
                  eq_refl)).
Defined.

(** X8.  [stopCamera] always ends with no camera session: no stream held,
    the camera not active, the video element (if any) showing nothing.  The
    stream it held is stopped and no other stream is touched; the result,
    the error, [isAnalyzing] and the canvas are as they were. *)
Theorem stopCamera_releases :
  forall (w : FaceScan.World),
    let w' := FaceScan.stopCamera w in
    FaceScan.sessionActive w' = false
    /\ (forall stream, FaceScan.streamRef w = Some stream ->
          FaceScan.streams w' !! stream <> Some true
          /\ forall other, other <> stream ->
               FaceScan.streams w' !! other = FaceScan.streams w !! other)
    /\ (FaceScan.streamRef w = None ->
        FaceScan.streams w' = FaceScan.streams w)
    /\ length (FaceScan.streams w') = length (FaceScan.streams w)
    /\ FaceScan.analysisResult (FaceScan.state w')
       = FaceScan.analysisResult (FaceScan.state w)
    /\ FaceScan.error (FaceScan.state w') = FaceScan.error (FaceScan.state w)
    /\ FaceScan.isAnalyzing (FaceScan.state w')
       = FaceScan.isAnalyzing (FaceScan.state w)
    /\ FaceScan.canvasRef w' = FaceScan.canvasRef w.
Proof.
  intros [[ml m an ca ar er] [[so pl]|] c [sr|] ss d]; cbn;
    repeat split; try discriminate; try reflexivity;
    try apply length_insert;
    match goal with
    | H : Some _ = Some _ |- _ => injection H as <-
    end;
    [apply stopped_not_live
    |intros other Ho; apply list_lookup_insert_ne; congruence
    |apply stopped_not_live
    |intros other Ho; apply list_lookup_insert_ne; congruence].
Qed.

Lemma stopCamera_releases_witness :
  FaceScan.streams (FaceScan.stopCamera FaceScan.cameraLive) !! 0%nat
  <> Some true.
Proof.
  exact (proj1 (proj1 (proj2 (stopCamera_releases FaceScan.cameraLive))
                  0%nat eq_refl)).
Defined.

(** ** Face: uploads and guards *)

(** X9.  Once the uploaded image has loaded, the handler sizes the canvas
    to it, paints it and hands this snapshot to the detector.  When the
    detector answers with one or more regions, the handler strokes, for
    each region in order, the rectangle from its top-left corner with its
    width and height, in ['#10b981'] with line width 3, touching nothing
    but the canvas, awaits the analysis, and then only sets the result
    (taking two draws) and clears [isAnalyzing]: unlike a capture it does
    not stop the camera or touch any stream. *)
Theorem upload_keeps_camera :
  forall (random : nat -> Q) (m : FaceScan.BlazeFaceModel)
         (img : FaceScan.Picture) (w0 : FaceScan.World)
         (canvas0 : FaceScan.Canvas) (p : FaceScan.Prediction)
         (ps : list FaceScan.Prediction),
    FaceScan.canvasRef w0 = Some canvas0 ->
    let predictions := p :: ps in
    let snapshot :=
      {| FaceScan.width := FaceScan.pictureWidth img;
         FaceScan.height := FaceScan.pictureHeight img;
         FaceScan.bitmap := [FaceScan.DrawImage (FaceScan.pixels img)] |} in
    let stroke := fun region : FaceScan.Prediction =>
      FaceScan.StrokeRect "#10b981" 3
        (fst (FaceScan.topLeft region)) (snd (FaceScan.topLeft region))
        (fst (FaceScan.bottomRight region) - fst (FaceScan.topLeft region))
        (snd (FaceScan.bottomRight region) - snd (FaceScan.topLeft region)) in
    FaceScan.handleFileUpload_loaded random m img w0
    = Suspended (FaceScan.EstimateFaces m snapshot)
        (FaceScan.setCanvasRef (Some snapshot) w0)
        (FaceScan.handleFileUpload_detected random)
    /\ FaceScan.artifacts
         (FaceScan.drawBoxes predictions
            (FaceScan.setCanvasRef (Some snapshot) w0))
       = FaceScan.DrawImage (FaceScan.pixels img) :: map stroke predictions
    /\ forall (w : FaceScan.World) (canvas : FaceScan.Canvas),
        FaceScan.canvasRef w = Some canvas ->
        let boxed := FaceScan.drawBoxes predictions w in
        exists k,
          FaceScan.handleFileUpload_detected random
            (Js.Fulfilled predictions) w
          = Suspended (FaceScan.SetTimeout 2000) boxed k
          /\ FaceScan.canvasRef boxed
             = Some {| FaceScan.width := FaceScan.width canvas;
                       FaceScan.height := FaceScan.height canvas;
                       FaceScan.bitmap :=
                         FaceScan.bitmap canvas ++ map stroke predictions |}
          /\ FaceScan.streamRef boxed = FaceScan.streamRef w
          /\ FaceScan.streams boxed = FaceScan.streams w
          /\ FaceScan.videoRef boxed = FaceScan.videoRef w
          /\ FaceScan.state boxed = FaceScan.state w
          /\ forall w2 : FaceScan.World,
              let result :=
                fst (FaceScan.produce random (FaceScan.draws w2)) in
              k tt w2
              = Resolved
                  (FaceScan.setIsAnalyzing false
                     (FaceScan.setAnalysisResult (Some result)
                        (FaceScan.setDraws (2 + FaceScan.draws w2) w2))).
Proof.
  intros random m img w0 canvas0 p ps Hc0 predictions snapshot stroke.
  split.
  { unfold FaceScan.handleFileUpload_loaded. rewrite Hc0. reflexivity. }
  split.
  { destruct (artifacts_drawBoxes predictions
                (FaceScan.setCanvasRef (Some snapshot) w0) snapshot eq_refl)
      as (E & _).
    unfold FaceScan.artifacts. rewrite E. reflexivity. }
  intros w canvas Hc boxed.
  destruct (artifacts_drawBoxes predictions w canvas Hc)
    as (E & Es & Ev & Er & Et & Ed).
  eexists. split; [reflexivity|].
  split; [exact E|]. split; [exact Er|]. split; [exact Et|].
  split; [exact Ev|]. split; [exact Es|].
  intros w2. cbv beta zeta. rewrite analyzeHealth_resume_eq. cbn [andThen].
  rewrite face_produce_eq. reflexivity.
Qed.

Lemma upload_keeps_camera_witness :
  let region :=
    {| FaceScan.topLeft := (10, 20); FaceScan.bottomRight := (110, 140);
       FaceScan.probability := Js.number 0.98 |} in
  let img :=
    {| FaceScan.pixels := 7; FaceScan.pictureWidth := 800;
       FaceScan.pictureHeight := 600 |} in
  FaceScan.artifacts
    (FaceScan.drawBoxes [region]
       (FaceScan.setCanvasRef
          (Some {| FaceScan.width := 800; FaceScan.height := 600;
                   FaceScan.bitmap := [FaceScan.DrawImage 7] |})
          FaceScan.initial))
  = [FaceScan.DrawImage 7;
     FaceScan.StrokeRect "#10b981" 3 10 20 (110 - 10) (140 - 20)].
Proof.
  cbn zeta.
  exact (proj1 (proj2
           (upload_keeps_camera (fun _ => 9 # 10) FaceScan.blazeface
              {| FaceScan.pixels := 7; FaceScan.pictureWidth := 800;
                 FaceScan.pictureHeight := 600 |}
              FaceScan.initial _
              {| FaceScan.topLeft := (10, 20);
                 FaceScan.bottomRight := (110, 140);
                 FaceScan.probability := Js.number 0.98 |}
              [] eq_refl))).
Defined.

(** X10.  A capture with no video element, no canvas or no model, and an
    upload with no file, no canvas or no model, do nothing at all: the
    world is unchanged ([isAnalyzing] is not even set) and nothing is
    awaited.  An image that loads after the canvas is gone changes nothing
    either. *)
Theorem capture_guards :
  forall (random : nat -> Q) (rho : FaceScan.State) (w : FaceScan.World),
    (FaceScan.videoRef w = None \/ FaceScan.canvasRef w = None
     \/ FaceScan.model rho = None ->
     FaceScan.captureAndAnalyze random rho w = Resolved w)
    /\ (forall file,
          file = None \/ FaceScan.canvasRef w = None
          \/ FaceScan.model rho = None ->
          FaceScan.handleFileUpload random rho file w = Resolved w)
    /\ (forall m img,
          FaceScan.canvasRef w = None ->
          FaceScan.handleFileUpload_loaded random m img w = Resolved w).
Proof.
  intros random rho w. split; [|split].
  - unfold FaceScan.captureAndAnalyze.
    intros [H|[H|H]]; rewrite H;
      repeat match goal with
             | |- context [match ?x with _ => _ end] => destruct x
             end; reflexivity.
  - intros file [H|[H|H]]; unfold FaceScan.handleFileUpload;
      try rewrite H;
      repeat match goal with
             | |- context [match ?x with _ => _ end] => destruct x
             end; try reflexivity; discriminate.
  - intros m img H. unfold FaceScan.handleFileUpload_loaded. rewrite H.
    reflexivity.
Qed.

Lemma capture_guards_witness :
  FaceScan.captureAndAnalyze (fun _ => 1 # 2)
    (FaceScan.state FaceScan.initial) FaceScan.initial
  = Resolved FaceScan.initial.
Proof.
  exact (proj1 (capture_guards (fun _ => 1 # 2)
                  (FaceScan.state FaceScan.initial) FaceScan.initial)
           (or_introl eq_refl)).
Defined.
